(** * ClusterRunner master web application: request handlers and route tree

    A shallow embedding of [app/web_framework/cluster_master_application.py].

    The handlers are written in a small state-and-exception monad.  The
    state records what a handler does to the outside: the calls it makes
    to the cluster master, the slave registry and analytics (the call log
    a spy collaborator would keep), the world those collaborators own, and
    the response actions it performs on the web framework ([write],
    [redirect], [_write_status], ...).  The collaborators themselves are
    not part of this source file; they are an interface ([Collaborators])
    every statement quantifies over. *)

From Stdlib Require Import String Ascii ZArith QArith List Lia Bool DecimalString DecimalPos.
Import ListNotations.

Local Open Scope string_scope.
Local Open Scope Z_scope.
Set Warnings "-register-all".

(* ================================================================== *)
(** ** Python built-ins used by the handlers *)

Module Py.

(** Exceptions the handlers raise or let through. *)
Inductive exn : Type :=
| ItemNotFoundError (msg : string)
| RuntimeError (msg : string)
| AuthenticationError
| ValueError
| TypeError
| IndexError
| AttributeError
| NotImplementedError
| HTTPError (code : Z)
| OverflowError
| OtherError (msg : string).

Definition is_digit (c : ascii) : bool :=
  let n := nat_of_ascii c in (48 <=? n)%nat && (n <=? 57)%nat.

Definition digit_value (c : ascii) : Z := Z.of_nat (nat_of_ascii c) - 48.

(** Text is a sequence of characters with codes below 256.  The
    handlers' arguments are ASCII in the cases the statements below
    decide by [int] refusing them; [is_ascii] says so. *)
Fixpoint is_ascii (s : string) : bool :=
  match s with
  | EmptyString => true
  | String c r => (nat_of_ascii c <? 128)%nat && is_ascii r
  end.

(** The white space [int] skips around the digits of an ASCII string:
    tab, line feed, vertical tab, form feed, carriage return, space. *)
Definition is_space (c : ascii) : bool :=
  let n := nat_of_ascii c in
  ((9 <=? n)%nat && (n <=? 13)%nat) || (n =? 32)%nat.

(** The white space [str.strip] removes: the above, the separators 28
    to 31, next line (133) and no-break space (160). *)
Definition is_str_space (c : ascii) : bool :=
  let n := nat_of_ascii c in
  ((9 <=? n)%nat && (n <=? 13)%nat) || ((28 <=? n)%nat && (n <=? 32)%nat)
  || (n =? 133)%nat || (n =? 160)%nat.

Fixpoint lstrip (s : string) : string :=
  match s with
  | String c r => if is_space c then lstrip r else s
  | EmptyString => EmptyString
  end.

Fixpoint rev_string (acc s : string) : string :=
  match s with
  | EmptyString => acc
  | String c r => rev_string (String c acc) r
  end.

Definition strip (s : string) : string :=
  rev_string "" (lstrip (rev_string "" (lstrip s))).

Fixpoint str_lstrip (s : string) : string :=
  match s with
  | String c r => if is_str_space c then str_lstrip r else s
  | EmptyString => EmptyString
  end.

(** [s.strip()]. *)
Definition str_strip (s : string) : string :=
  rev_string "" (str_lstrip (rev_string "" (str_lstrip s))).

(** The digits of a decimal literal: single underscores are allowed
    between digits, nowhere else. *)
Fixpoint parse_digits (s : string) (acc : Z) (after_digit : bool) : option Z :=
  match s with
  | EmptyString => if after_digit then Some acc else None
  | String c r =>
      if is_digit c then parse_digits r (10 * acc + digit_value c) true
      else if Ascii.eqb c "_" && after_digit then parse_digits r acc false
      else None
  end.

(** [int(s)] for a string [s], base ten: surrounding white space, an
    optional sign, then the digits.  On an ASCII string this is Python's
    [int], [None] standing for the [ValueError] it raises.  A string that
    [int] converts here is ASCII; for a string with other characters
    (Unicode digits or spaces) [None] says nothing, and the statements
    that rest on [None] take an ASCII string. *)
Definition int (s : string) : option Z :=
  match strip s with
  | String "-" r => option_map Z.opp (parse_digits r 0 false)
  | String "+" r => parse_digits r 0 false
  | r => parse_digits r 0 false
  end.

(** [str(n)] for an integer. *)
Definition str (n : Z) : string := NilZero.string_of_int (Z.to_int n).

(** A float, by its exact value when it is finite. *)
Inductive float : Type :=
| finite (value : Q)
| infinity (negative : bool)
| nan.

(** [int(x)] for a float: the value truncated towards zero. *)
Definition int_of_float (x : float) : exn + Z :=
  match x with
  | finite v => inr (Z.quot (Qnum v) (Z.pos (Qden v)))
  | infinity _ => inl OverflowError
  | nan => inl ValueError
  end.

Definition hex_digit (n : nat) : ascii :=
  ascii_of_nat (if (n <? 10)%nat then 48 + n else 55 + n).

Definition is_unreserved (c : ascii) : bool :=
  let n := nat_of_ascii c in
  is_digit c
  || ((65 <=? n)%nat && (n <=? 90)%nat)
  || ((97 <=? n)%nat && (n <=? 122)%nat)
  || Ascii.eqb c "_" || Ascii.eqb c "." || Ascii.eqb c "-" || Ascii.eqb c "~".

(** [urllib.parse.quote_plus] on ASCII text. *)
Fixpoint quote_plus (s : string) : string :=
  match s with
  | EmptyString => EmptyString
  | String c r =>
      if is_unreserved c then String c (quote_plus r)
      else if Ascii.eqb c " " then String "+" (quote_plus r)
      else
        let n := nat_of_ascii c in
        String "%" (String (hex_digit (n / 16)) (String (hex_digit (n mod 16)) (quote_plus r)))
  end.

(** [urllib.parse.urlencode] of a dict with string keys and integer
    values, in insertion order. *)
Definition urlencode (query : list (string * Z)) : string :=
  String.concat "&" (map (fun kv => quote_plus (fst kv) ++ "=" ++ quote_plus (str (snd kv))) query).

(** [l[i]] on a list: a negative index counts from the end, an index
    outside the list raises [IndexError]. *)
Definition list_index {A : Type} (l : list A) (i : Z) : exn + A :=
  let n := Z.of_nat (length l) in
  let j := if i <? 0 then i + n else i in
  if (0 <=? j) && (j <? n) then
    match nth_error l (Z.to_nat j) with
    | Some x => inr x
    | None => inl IndexError
    end
  else inl IndexError.

(** [os.path.split] on a POSIX path: everything after the last slash is
    the tail; the head loses its trailing slashes unless it is only
    slashes. *)
Fixpoint split_last_slash (s : string) : option (string * string) :=
  match s with
  | EmptyString => None
  | String c r =>
      match split_last_slash r with
      | Some (h, t) => Some (String c h, t)
      | None => if Ascii.eqb c "/" then Some (EmptyString, r) else None
      end
  end.

Fixpoint all_slashes (s : string) : bool :=
  match s with
  | EmptyString => true
  | String c r => Ascii.eqb c "/" && all_slashes r
  end.

Fixpoint lstrip_slashes (s : string) : string :=
  match s with
  | String c r => if Ascii.eqb c "/" then lstrip_slashes r else s
  | EmptyString => EmptyString
  end.

Definition path_split (p : string) : string * string :=
  match split_last_slash p with
  | None => ("", p)
  | Some (h, t) =>
      let head := h ++ "/" in
      (if all_slashes head then head
       else rev_string "" (lstrip_slashes (rev_string "" head)), t)
  end.

End Py.

Import Py.

(* ================================================================== *)
(** ** Values exchanged with the client *)

(** Decoded JSON, as [decoded_body] holds it and [write] sends it. *)
Inductive Json : Type :=
| JNull
| JBool (b : bool)
| JInt (n : Z)
| JFloat (x : Py.float)
| JStr (s : string)
| JList (items : list Json)
| JDict (items : list (string * Json)).

Fixpoint assoc_get {A : Type} (k : string) (d : list (string * A)) : option A :=
  match d with
  | [] => None
  | (k', v) :: r => if String.eqb k k' then Some v else assoc_get k r
  end.

(** [d.get(k)]: [None] (here [JNull]) when the key is absent. *)
Definition dict_get (d : list (string * Json)) (k : string) : Json :=
  match assoc_get k d with Some v => v | None => JNull end.

(** [d.get(k, {})]. *)
Definition dict_get_or_empty (d : list (string * Json)) (k : string) : Json :=
  match assoc_get k d with Some v => v | None => JDict [] end.

(** [v.get(k)] on a value that need not be a dict. *)
Definition json_get (v : Json) (k : string) : exn + Json :=
  match v with
  | JDict d => inr (dict_get d k)
  | _ => inl AttributeError
  end.

(** Truth value of a decoded value, as [if v:] tests it. *)
Definition truthy (v : Json) : bool :=
  match v with
  | JNull => false
  | JBool b => b
  | JInt n => negb (n =? 0)
  | JFloat (Py.finite v) => negb (Qnum v =? 0)
  | JFloat _ => true
  | JStr s => negb (String.eqb s "")
  | JList l => match l with [] => false | _ => true end
  | JDict d => match d with [] => false | _ => true end
  end.

(** [int(v)] on a decoded value. *)
Definition json_int (v : Json) : exn + Z :=
  match v with
  | JInt n => inr n
  | JBool b => inr (if b then 1 else 0)
  | JFloat x => Py.int_of_float x
  | JStr s => match Py.int s with Some n => inr n | None => inl ValueError end
  | _ => inl TypeError
  end.

Fixpoint chars (s : string) : list string :=
  match s with
  | EmptyString => []
  | String c r => String c EmptyString :: chars r
  end.

(** The items a [for] loop sees in a decoded value. *)
Definition json_iter (v : Json) : exn + list Json :=
  match v with
  | JList l => inr l
  | JDict d => inr (map (fun kv => JStr (fst kv)) d)
  | JStr s => inr (map JStr (chars s))
  | _ => inl TypeError
  end.

Fixpoint map_exn {A B : Type} (f : A -> exn + B) (l : list A) : exn + list B :=
  match l with
  | [] => inr []
  | x :: r =>
      match f x with
      | inl e => inl e
      | inr y => match map_exn f r with inl e => inl e | inr ys => inr (y :: ys) end
      end
  end.

(** An uploaded file of a multipart request. *)
Record HTTPFile : Type := { filename : string; body : string }.

(** What a handler reads from the request.  [query] holds the decoded
    query arguments in the order they were given. *)
Record Request : Type := {
  query : list (string * string);
  decoded_body : list (string * Json);
  files : list (string * list HTTPFile);
  credential : option string;
  api_version : Z
}.

(** The last value given for [name] in the query, as it was sent. *)
Fixpoint last_argument (q : list (string * string)) (name : string) : option string :=
  match q with
  | [] => None
  | (k, v) :: r =>
      match last_argument r name with
      | Some v' => Some v'
      | None => if String.eqb k name then Some v else None
      end
  end.

(** The characters the framework replaces by a space in an argument:
    codes 0 to 8 and 14 to 31. *)
Definition is_control (c : ascii) : bool :=
  let n := nat_of_ascii c in
  (n <=? 8)%nat || ((14 <=? n)%nat && (n <=? 31)%nat).

Fixpoint remove_control_chars (s : string) : string :=
  match s with
  | EmptyString => EmptyString
  | String c r => String (if is_control c then " "%char else c) (remove_control_chars r)
  end.

(** [get_query_argument(name, default)]: the last value given for
    [name], with its control characters replaced by spaces and then
    stripped, as the framework hands it to the handler; [None] stands
    for the default. *)
Definition get_query_argument (q : list (string * string)) (name : string) : option string :=
  option_map (fun v => Py.str_strip (remove_control_chars v)) (last_argument q name).

(** The response actions of the framework's handler base class. *)
Inductive Output : Type :=
| Write (response : Json)
| WriteText (text : string)
| WriteStatus (response : option Json) (success : option bool) (status_code : option Z)
| Redirect (url : string)
| SetHeader (name value : string)
| ServeStaticFile (root path : string).

(** The collaborator methods a handler can call. *)
Inductive Method : Type :=
| m_api_representation
| m_active_builds
| m_get_build
| m_get_builds
| m_get_console_output
| m_handle_request_for_new_build
| m_handle_request_to_update_build
| m_connect_slave
| m_handle_slave_state_update
| m_update_slave_last_heartbeat_time
| m_set_shutdown_mode_on_slaves
| m_handle_result_reported_from_slave
| m_get_path_for_build_results_archive
| r_get_slave
| r_get_all_slaves_by_id
| a_record_event
| a_get_events
| p_generate_latest.

(* ================================================================== *)
(** ** The collaborators *)

(** The [atoms] attribute of a subjob.  The handlers use it both ways:
    [_AtomsHandler.get] calls it ([subjob.atoms()]) and [_AtomHandler.get]
    indexes it ([subjob.atoms[i]]).  The [Subjob] class is not in this
    file, so the attribute is either a list or a bound method, and each
    use raises [TypeError] on the other kind. *)
Inductive AtomsAttr (Atom : Type) : Type :=
| AtomsList (atoms : list Atom)
| AtomsMethod (atoms : list Atom).
Arguments AtomsList {Atom} atoms.
Arguments AtomsMethod {Atom} atoms.

Definition call_atoms {Atom : Type} (a : AtomsAttr Atom) : exn + list Atom :=
  match a with
  | AtomsMethod l => inr l
  | AtomsList _ => inl TypeError
  end.

Definition index_atoms {Atom : Type} (a : AtomsAttr Atom) (i : Z) : exn + Atom :=
  match a with
  | AtomsList l => Py.list_index l i
  | AtomsMethod _ => inl TypeError
  end.

(** Everything the handlers reach outside this file: the cluster master,
    the slave registry singleton, analytics, the metrics registry, the
    configuration and the URL builder.  A method of the master or of the
    registry is a function of the world they own: it returns a value or
    raises, and leaves a new world.  [None] for an [offset] or [limit]
    argument is an argument left out of the call. *)
Record Collaborators : Type := {
  World : Type;
  Build : Type;
  Subjob : Type;
  Atom : Type;
  Slave : Type;
  (* app.master.cluster_master.ClusterMaster *)
  api_representation : World -> (exn + Json) * World;
  active_builds : World -> (exn + list Build) * World;
  get_build : Z -> World -> (exn + Build) * World;
  get_builds : option Z -> option Z -> World -> (exn + list Build) * World;
  get_console_output :
    string -> string -> string -> string -> Z -> option Z -> World -> (exn + Json) * World;
  handle_request_for_new_build :
    list (string * Json) -> World -> (exn + bool * Json) * World;
  handle_request_to_update_build :
    string -> list (string * Json) -> World -> (exn + bool * Json) * World;
  connect_slave : Json -> Z -> Json -> World -> (exn + Json) * World;
  handle_slave_state_update : Slave -> Json -> World -> (exn + unit) * World;
  update_slave_last_heartbeat_time : Slave -> World -> (exn + unit) * World;
  set_shutdown_mode_on_slaves : list Z -> World -> (exn + unit) * World;
  handle_result_reported_from_slave :
    Json -> Z -> Z -> HTTPFile -> World -> (exn + unit) * World;
  get_path_for_build_results_archive : Z -> option bool -> World -> (exn + string) * World;
  (* app.master.slave.SlaveRegistry.singleton() *)
  get_slave_by_url : Json -> World -> (exn + Slave) * World;
  get_slave_by_id : Z -> World -> (exn + Slave) * World;
  get_all_slaves_by_id : World -> (exn + list (Z * Slave)) * World;
  (* app.util.analytics, prometheus_client *)
  record_event : Json -> Z -> Z -> Slave -> World -> (exn + unit) * World;
  get_events : option string -> option string -> World -> (exn + Json) * World;
  generate_latest : World -> (exn + string) * World;
  (* the objects the master hands out *)
  build_api_representation : Build -> Json;
  build_subjob : Build -> Z -> exn + Subjob;
  build_get_subjobs : Build -> option Z -> option Z -> exn + list Subjob;
  subjob_api_representation : Subjob -> Json;
  subjob_atoms : Subjob -> AtomsAttr Atom;
  subjob_get_atoms : Subjob -> option Z -> option Z -> exn + list Atom;
  subjob_slave : Subjob -> option Slave;
  atom_api_representation : Atom -> Json;
  slave_api_representation : Slave -> Json;
  slave_url : Slave -> string;
  (* Configuration['results_directory'], Configuration['version'] *)
  results_directory : string;
  configured_version : string;
  (* UrlBuilder(base).url(part, ...) *)
  UrlBuilder_url : string -> list string -> string;
  (* tornado.web.StaticFileHandler.get(path) with the handler's root:
     it serves the file, or raises (a missing path, a path that is no
     file, a path outside the root) *)
  StaticFileHandler_get : string -> string -> World -> (exn + unit) * World;
  (* the check the [authenticated] decorator makes on a credential *)
  valid_credential : string -> bool
}.

(* ================================================================== *)
(** ** The handler monad *)

(** What a handler has done so far. *)
Record HState (W : Type) : Type := mkHState {
  world : W;
  calls : list Method;
  out : list Output
}.
Arguments mkHState {W} world calls out.
Arguments world {W} h.
Arguments calls {W} h.
Arguments out {W} h.

(** A handler step: from a state, a value or a raised exception, and the
    state reached.  What was done before an exception stays done. *)
Definition M (W A : Type) : Type := HState W -> (exn + A) * HState W.

Definition ret {W A : Type} (a : A) : M W A := fun s => (inr a, s).

Definition bind {W A B : Type} (m : M W A) (k : A -> M W B) : M W B :=
  fun s =>
    match m s with
    | (inr a, s') => k a s'
    | (inl e, s') => (inl e, s')
    end.

Definition raise {W A : Type} (e : exn) : M W A := fun s => (inl e, s).

(** A value computed without the collaborators, or the exception doing
    so raises. *)
Definition lift {W A : Type} (r : exn + A) : M W A := fun s => (r, s).

(** A call of a collaborator method: it is logged, and the world moves. *)
Definition call {W A : Type} (m : Method) (f : W -> (exn + A) * W) : M W A :=
  fun s =>
    let (r, w) := f (world s) in
    (r, mkHState w (calls s ++ [m]) (out s)).

(** A response action of the handler base class. *)
Definition emit {W : Type} (o : Output) : M W unit :=
  fun s => (inr tt, mkHState (world s) (calls s) (out s ++ [o])).

(** A response action the framework performs only when a step of its
    own succeeds: the step reads the world and may raise, and the action
    is performed after it. *)
Definition emit_after {W : Type} (f : W -> (exn + unit) * W) (o : Output) : M W unit :=
  fun s =>
    match f (world s) with
    | (inr _, w) => (inr tt, mkHState w (calls s) (out s ++ [o]))
    | (inl e, w) => (inl e, mkHState w (calls s) (out s))
    end.

(** [try: body except ...: handler]; [handler e] is [None] when no
    [except] clause matches [e]. *)
Definition try_except {W A : Type} (body : M W A) (handler : exn -> option (M W A)) : M W A :=
  fun s =>
    match body s with
    | (inr a, s') => (inr a, s')
    | (inl e, s') =>
        match handler e with
        | Some h => h s'
        | None => (inl e, s')
        end
    end.

Declare Scope handler_scope.
Delimit Scope handler_scope with handler.
Notation "x <- m ;; k" := (bind m (fun x => k))
  (at level 61, m at next level, right associativity) : handler_scope.
Notation "m ;;; k" := (bind m (fun _ => k))
  (at level 61, right associativity) : handler_scope.
Local Open Scope handler_scope.

(** [int(s)] on a string, raising [ValueError]. *)
Definition int_str {W : Type} (s : string) : M W Z :=
  match Py.int s with
  | Some n => ret n
  | None => raise ValueError
  end.

(* ================================================================== *)
(** ** The handlers *)

Section Handlers.

Variable C : Collaborators.

Local Abbreviation H := (M (World C)).

(** Modelled from the spec: the credential check behind the
    [authenticated] decorator.  A request is authenticated when it
    carries a credential and the credential is valid. *)
Definition is_authenticated (req : Request) : bool :=
  match credential req with
  | Some c => valid_credential C c
  | None => false
  end.

(** Modelled from the spec: the [authenticated] decorator of
    [app.util.decorators] is not in this file.  The spec has protected
    endpoints require an authentication credential and reject a call
    without a valid one before the handler body executes. *)
Definition authenticated (req : Request) (method_body : H unit) : H unit :=
  if is_authenticated req then method_body else raise AuthenticationError.

(** Modelled from the spec: [get_pagination_params] of the handler base
    class is not in this file.  The spec has a listing accept the query
    parameters [offset] (default 0) and [limit] (default unbounded,
    here [None]). *)
Definition get_pagination_params (req : Request) : H (Z * option Z) :=
  offset <- match get_query_argument (query req) "offset" with
            | None => ret 0
            | Some s => int_str s
            end ;;
  limit <- match get_query_argument (query req) "limit" with
           | None => ret None
           | Some s => n <- int_str s ;; ret (Some n)
           end ;;
  ret (offset, limit).

Definition _APIVersionOneHandler_get (req : Request) : H unit :=
  master <- call m_api_representation (api_representation C) ;;
  emit (Write (JDict [("master", master)])).

Definition _VersionHandler_get (req : Request) : H unit :=
  emit (Write (JDict [("version", JStr (configured_version C));
                      ("api_version", JInt (api_version req))])).

Definition _MetricsHandler_get (req : Request) : H unit :=
  text <- call p_generate_latest (generate_latest C) ;;
  emit (WriteText text).

Definition _QueueHandler_get (req : Request) : H unit :=
  builds <- call m_active_builds (active_builds C) ;;
  emit (Write (JDict [("queue", JList (map (build_api_representation C) builds))])).

Definition _SubjobsHandler_get (req : Request) (build_id : string) : H unit :=
  b <- int_str build_id ;;
  build <- call m_get_build (get_build C b) ;;
  subjobs <- lift (build_get_subjobs C build None None) ;;
  emit (Write (JDict [("subjobs", JList (map (subjob_api_representation C) subjobs))])).

Definition _V2SubjobsHandler_get (req : Request) (build_id : string) : H unit :=
  p <- get_pagination_params req ;;
  b <- int_str build_id ;;
  build <- call m_get_build (get_build C b) ;;
  subjobs <- lift (build_get_subjobs C build (Some (fst p)) (snd p)) ;;
  emit (Write (JDict [("subjobs", JList (map (subjob_api_representation C) subjobs))])).

Definition _SubjobHandler_get (req : Request) (build_id subjob_id : string) : H unit :=
  b <- int_str build_id ;;
  build <- call m_get_build (get_build C b) ;;
  sj <- int_str subjob_id ;;
  subjob <- lift (build_subjob C build sj) ;;
  emit (Write (JDict [("subjob", subjob_api_representation C subjob)])).

Definition _SubjobResultHandler_post (req : Request) (build_id subjob_id : string) : H unit :=
  let slave_url := dict_get (decoded_body req) "slave" in
  slave <- call r_get_slave (get_slave_by_url C slave_url) ;;
  match assoc_get "file" (files req) with
  | None | Some [] => raise (RuntimeError "Result file not provided")
  | Some (file0 :: _) =>
      slave_executor_id <-
        lift (json_get (dict_get_or_empty (decoded_body req) "metric_data") "executor_id") ;;
      b <- int_str build_id ;;
      sj <- int_str subjob_id ;;
      call a_record_event (record_event C slave_executor_id b sj slave) ;;;
      b' <- int_str build_id ;;
      sj' <- int_str subjob_id ;;
      call m_handle_result_reported_from_slave
           (handle_result_reported_from_slave C slave_url b' sj' file0) ;;;
      emit (WriteStatus None None None)
  end.

Definition _SubjobResultHandler_get (req : Request) (build_id subjob_id : string) : H unit :=
  emit (Write (JDict [("status", JStr "not implemented")])).

Definition _AtomsHandler_get (req : Request) (build_id subjob_id : string) : H unit :=
  b <- int_str build_id ;;
  build <- call m_get_build (get_build C b) ;;
  sj <- int_str subjob_id ;;
  subjob <- lift (build_subjob C build sj) ;;
  atoms <- lift (call_atoms (subjob_atoms C subjob)) ;;
  emit (Write (JDict [("atoms", JList (map (atom_api_representation C) atoms))])).

Definition _V2AtomsHandler_get (req : Request) (build_id subjob_id : string) : H unit :=
  p <- get_pagination_params req ;;
  b <- int_str build_id ;;
  build <- call m_get_build (get_build C b) ;;
  sj <- int_str subjob_id ;;
  subjob <- lift (build_subjob C build sj) ;;
  atoms <- lift (subjob_get_atoms C subjob (Some (fst p)) (snd p)) ;;
  emit (Write (JDict [("atoms", JList (map (atom_api_representation C) atoms))])).

Definition _AtomHandler_get (req : Request) (build_id subjob_id atom_id : string) : H unit :=
  b <- int_str build_id ;;
  build <- call m_get_build (get_build C b) ;;
  sj <- int_str subjob_id ;;
  subjob <- lift (build_subjob C build sj) ;;
  let atoms := subjob_atoms C subjob in
  a <- int_str atom_id ;;
  atom <- lift (index_atoms atoms a) ;;
  emit (Write (JDict [("atom", atom_api_representation C atom)])).

(** The query the console handler forwards to the slave. *)
Definition console_query (max_lines : Z) (offset_line : option Z) : list (string * Z) :=
  ("max_lines", max_lines)
    :: match offset_line with
       | Some o => [("offset_line", o)]
       | None => []
       end.

Definition _AtomConsoleHandler_get (req : Request) (build_id subjob_id atom_id : string)
  : H unit :=
  max_lines <- match get_query_argument (query req) "max_lines" with
               | None => ret 50
               | Some s => int_str s
               end ;;
  offset_line <- match get_query_argument (query req) "offset_line" with
                 | None => ret None
                 | Some s => n <- int_str s ;; ret (Some n)
                 end ;;
  try_except
    (response <- call m_get_console_output
                   (get_console_output C build_id subjob_id atom_id
                      (results_directory C) max_lines offset_line) ;;
     emit (Write response))
    (fun e =>
       match e with
       | ItemNotFoundError _ =>
           Some (b <- int_str build_id ;;
                 build <- call m_get_build (get_build C b) ;;
                 sj <- int_str subjob_id ;;
                 subjob <- lift (build_subjob C build sj) ;;
                 match subjob_slave C subjob with
                 | None => raise e
                 | Some slave =>
                     let slave_console_url :=
                       UrlBuilder_url C (slave_url C slave)
                         ["build"; build_id; "subjob"; subjob_id; "atom"; atom_id; "console"] in
                     let query_string := Py.urlencode (console_query max_lines offset_line) in
                     emit (Redirect (slave_console_url ++ "?" ++ query_string))
                 end)
       | _ => None
       end).

Definition _BuildsHandler_post (req : Request) : H unit :=
  authenticated req
    (let build_params := decoded_body req in
     r <- call m_handle_request_for_new_build (handle_request_for_new_build C build_params) ;;
     let (success, response) := r : bool * Json in
     let status_code := if success then 202 else 400 in
     emit (WriteStatus (Some response) (Some success) (Some status_code))).

Definition _BuildsHandler_get (req : Request) : H unit :=
  builds <- call m_get_builds (get_builds C None None) ;;
  emit (Write (JDict [("builds", JList (map (build_api_representation C) builds))])).

Definition _V2BuildsHandler_get (req : Request) : H unit :=
  p <- get_pagination_params req ;;
  builds <- call m_get_builds (get_builds C (Some (fst p)) (snd p)) ;;
  emit (Write (JDict [("builds", JList (map (build_api_representation C) builds))])).

Definition _BuildHandler_put (req : Request) (build_id : string) : H unit :=
  authenticated req
    (let update_params := decoded_body req in
     r <- call m_handle_request_to_update_build
            (handle_request_to_update_build C build_id update_params) ;;
     let (success, response) := r : bool * Json in
     let status_code := if success then 200 else 400 in
     emit (WriteStatus (Some response) (Some success) (Some status_code))).

Definition _BuildHandler_get (req : Request) (build_id : string) : H unit :=
  b <- int_str build_id ;;
  build <- call m_get_build (get_build C b) ;;
  emit (Write (JDict [("build", build_api_representation C build)])).

Definition _BuildResultRedirectHandler_get (req : Request) (build_id : string) : H unit :=
  emit (Redirect ("/v1/build/" ++ build_id ++ "/artifacts.tar.gz")).

(** [_BuildResultHandler.get], with [get_result_file_download_path] of
    the subclass: [is_tar_request] is [Some true] for the tar handler
    and left out by the zip handler. *)
Definition _BuildResultHandler_get (is_tar_request : option bool)
           (req : Request) (build_id : string) : H unit :=
  b <- int_str build_id ;;
  artifact_file_path <- call m_get_path_for_build_results_archive
                          (get_path_for_build_results_archive C b is_tar_request) ;;
  let (root, artifact_filename) := Py.path_split artifact_file_path in
  emit (SetHeader "Content-Type" "application/octet-stream") ;;;
  emit_after (StaticFileHandler_get C root artifact_filename)
    (ServeStaticFile root artifact_filename).

Definition _BuildTarResultHandler_get := _BuildResultHandler_get (Some true).
Definition _BuildZipResultHandler_get := _BuildResultHandler_get None.

Definition _SlavesHandler_post (req : Request) : H unit :=
  let slave_url := dict_get (decoded_body req) "slave" in
  num_executors <- lift (json_int (dict_get (decoded_body req) "num_executors")) ;;
  let session_id := dict_get (decoded_body req) "session_id" in
  response <- call m_connect_slave (connect_slave C slave_url num_executors session_id) ;;
  emit (WriteStatus (Some response) None (Some 201)).

Definition _SlavesHandler_get (req : Request) : H unit :=
  slaves <- call r_get_all_slaves_by_id (get_all_slaves_by_id C) ;;
  emit (Write (JDict [("slaves",
                       JList (map (fun kv => slave_api_representation C (snd kv)) slaves))])).

Definition _SlaveHandler_get (req : Request) (slave_id : string) : H unit :=
  sid <- int_str slave_id ;;
  slave <- call r_get_slave (get_slave_by_id C sid) ;;
  emit (Write (JDict [("slave", slave_api_representation C slave)])).

Definition _SlaveHandler_put (req : Request) (slave_id : string) : H unit :=
  authenticated req
    (new_slave_state <- lift (json_get (dict_get_or_empty (decoded_body req) "slave") "state") ;;
     sid <- int_str slave_id ;;
     slave <- call r_get_slave (get_slave_by_id C sid) ;;
     call m_handle_slave_state_update (handle_slave_state_update C slave new_slave_state) ;;;
     call m_update_slave_last_heartbeat_time (update_slave_last_heartbeat_time C slave) ;;;
     emit (WriteStatus (Some (JDict [("slave", slave_api_representation C slave)])) None None)).

Definition _EventlogHandler_get (req : Request) : H unit :=
  let since_timestamp := get_query_argument (query req) "since_timestamp" in
  let since_id := get_query_argument (query req) "since_id" in
  events <- call a_get_events (get_events C since_timestamp since_id) ;;
  emit (Write (JDict [("events", events)])).

Definition _SlaveShutdownHandler_post (req : Request) (slave_id : string) : H unit :=
  authenticated req
    (sid <- int_str slave_id ;;
     let slaves_to_shutdown := [sid] in
     call m_set_shutdown_mode_on_slaves (set_shutdown_mode_on_slaves C slaves_to_shutdown)).

Definition _SlavesShutdownHandler_post (req : Request) : H unit :=
  authenticated req
    (let shutdown_all := dict_get (decoded_body req) "shutdown_all" in
     slaves_to_shutdown <-
       (if truthy shutdown_all then
          slaves <- call r_get_all_slaves_by_id (get_all_slaves_by_id C) ;;
          ret (map fst slaves)
        else
          ids <- lift (json_iter (dict_get (decoded_body req) "slaves")) ;;
          lift (map_exn json_int ids)) ;;
     call m_set_shutdown_mode_on_slaves (set_shutdown_mode_on_slaves C slaves_to_shutdown)).

Definition _SlavesHeartbeatHandler_post (req : Request) (slave_id : string) : H unit :=
  authenticated req
    (sid <- int_str slave_id ;;
     slave <- call r_get_slave (get_slave_by_id C sid) ;;
     call m_update_slave_last_heartbeat_time (update_slave_last_heartbeat_time C slave)).

End Handlers.

(** What the first two statements of [_AtomConsoleHandler.get] read from
    the query: [max_lines] is the client's value as an integer, 50 when
    the client gives none; [offset_line] is the client's value as an
    integer, and [None] when the client gives none. *)
Definition console_arguments (req : Request) (max_lines : Z) (offset_line : option Z) : Prop :=
  match get_query_argument (query req) "max_lines" with
  | None => max_lines = 50
  | Some v => Py.int v = Some max_lines
  end
  /\ match get_query_argument (query req) "offset_line" with
     | None => offset_line = None
     | Some v => exists o, Py.int v = Some o /\ offset_line = Some o
     end.

(** The response carries a [{success, body}] envelope: the handler has
    called [_write_status]. *)
Definition reports_envelope (o : list Output) : Prop :=
  exists response success status_code, In (WriteStatus response success status_code) o.

(* ================================================================== *)
(** ** The route tree *)

(** The handler classes of the file. *)
Inductive HandlerType : Type :=
| _RootHandler
| _APIVersionOneHandler
| _VersionHandler
| _MetricsHandler
| _QueueHandler
| _SubjobsHandler
| _V2SubjobsHandler
| _SubjobHandler
| _SubjobResultHandler
| _AtomsHandler
| _V2AtomsHandler
| _AtomHandler
| _AtomConsoleHandler
| _BuildsHandler
| _V2BuildsHandler
| _BuildHandler
| _BuildResultRedirectHandler
| _BuildTarResultHandler
| _BuildZipResultHandler
| _SlavesHandler
| _SlaveHandler
| _EventlogHandler
| _SlaveShutdownHandler
| _SlavesShutdownHandler
| _SlavesHeartbeatHandler.

Definition HandlerType_eq_dec (a b : HandlerType) : {a = b} + {a <> b}.
Proof. decide equality. Defined.

Definition HandlerType_eqb (a b : HandlerType) : bool :=
  if HandlerType_eq_dec a b then true else false.

Inductive HttpMethod : Type := GET | POST | PUT.

(** Modelled from the spec: the [RouteNode] class of
    [app.web_framework.route_node] is not in this file.  The spec has a
    route node hold a path-segment pattern, the handler it dispatches to,
    an optional symbolic name and its ordered children; a version mount
    tags the nodes it attaches with a version. *)
Inductive RouteNode : Type :=
| Node (regex_part : string) (handler : HandlerType) (label : option string)
       (version : option Z) (children : list RouteNode).

Definition regex_part (n : RouteNode) : string :=
  match n with Node re _ _ _ _ => re end.
Definition handler (n : RouteNode) : HandlerType :=
  match n with Node _ h _ _ _ => h end.
Definition label (n : RouteNode) : option string :=
  match n with Node _ _ l _ _ => l end.
Definition version (n : RouteNode) : option Z :=
  match n with Node _ _ _ v _ => v end.
Definition children (n : RouteNode) : list RouteNode :=
  match n with Node _ _ _ _ kids => kids end.

(** [RouteNode(regex, handler)] and [RouteNode(regex, handler, label)]. *)
Definition route (regex : string) (h : HandlerType) : RouteNode :=
  Node regex h None None [].
Definition route_named (regex : string) (h : HandlerType) (name : string) : RouteNode :=
  Node regex h (Some name) None [].

Definition set_version (v : option Z) (n : RouteNode) : RouteNode :=
  match v with
  | None => n
  | Some _ => match n with Node re h l _ kids => Node re h l v kids end
  end.

(** [self.add_children(child_nodes, version=...)], which returns [self]. *)
Definition add_children (self : RouteNode) (child_nodes : list RouteNode) (v : option Z)
  : RouteNode :=
  match self with
  | Node re h l sv kids => Node re h l sv (kids ++ map (set_version v) child_nodes)
  end.

Definition api_v1 : list RouteNode :=
  [ add_children (route "v1" _APIVersionOneHandler) [
      route "metrics" _MetricsHandler;
      route "version" _VersionHandler;
      add_children (route_named "build" _BuildsHandler "builds") [
        add_children (route_named "(\d+)" _BuildHandler "build") [
          route "result" _BuildResultRedirectHandler;
          route "artifacts.tar.gz" _BuildTarResultHandler;
          route "artifacts.zip" _BuildZipResultHandler;
          add_children (route_named "subjob" _SubjobsHandler "subjobs") [
            add_children (route_named "(\d+)" _SubjobHandler "subjob") [
              add_children (route_named "atom" _AtomsHandler "atoms") [
                add_children (route_named "(\d+)" _AtomHandler "atom") [
                  route "console" _AtomConsoleHandler
                ] None
              ] None;
              route "result" _SubjobResultHandler
            ] None
          ] None
        ] None
      ] None;
      route "queue" _QueueHandler;
      add_children (route_named "slave" _SlavesHandler "slaves") [
        add_children (route_named "(\d+)" _SlaveHandler "slave") [
          route_named "shutdown" _SlaveShutdownHandler "shutdown";
          route "heartbeat" _SlavesHeartbeatHandler
        ] None;
        route_named "shutdown" _SlavesShutdownHandler "shutdown"
      ] None;
      route "eventlog" _EventlogHandler
    ] None ].

Definition api_v2 : list RouteNode :=
  [ route "metrics" _MetricsHandler;
    route "version" _VersionHandler;
    add_children (route "builds" _V2BuildsHandler) [
      add_children (route_named "(\d+)" _BuildHandler "build") [
        route "result" _BuildResultRedirectHandler;
        route "artifacts.tar.gz" _BuildTarResultHandler;
        route "artifacts.zip" _BuildZipResultHandler;
        add_children (route "subjobs" _V2SubjobsHandler) [
          add_children (route_named "(\d+)" _SubjobHandler "subjob") [
            add_children (route "atoms" _V2AtomsHandler) [
              add_children (route_named "(\d+)" _AtomHandler "atom") [
                route "console" _AtomConsoleHandler
              ] None
            ] None;
            route "result" _SubjobResultHandler
          ] None
        ] None
      ] None
    ] None;
    route "queue" _QueueHandler;
    add_children (route "slaves" _SlavesHandler) [
      add_children (route_named "(\d+)" _SlaveHandler "slave") [
        route "shutdown" _SlaveShutdownHandler;
        route "heartbeat" _SlavesHeartbeatHandler
      ] None;
      route "shutdown" _SlavesShutdownHandler
    ] None;
    route "eventlog" _EventlogHandler ].

(** The tree [ClusterMasterApplication.__init__] builds. *)
Definition root : RouteNode :=
  add_children (add_children (route "/" _RootHandler) api_v1 (Some 1)) api_v2 (Some 2).

(** The handler a list of sibling nodes reaches along a path of segment
    patterns. *)
Fixpoint handler_at (nodes : list RouteNode) (path : list string) : option HandlerType :=
  match path with
  | [] => None
  | seg :: rest =>
      match find (fun n => String.eqb (regex_part n) seg) nodes with
      | None => None
      | Some n =>
          match rest with
          | [] => Some (handler n)
          | _ => handler_at (children n) rest
          end
      end
  end.

(** The segment patterns from a node down to the first node, in
    pre-order, that dispatches to [h]. *)
Fixpoint route_to (h : HandlerType) (n : RouteNode) : option (list string) :=
  match n with
  | Node re h' _ _ kids =>
      if HandlerType_eqb h h' then Some [re]
      else
        match
          (fix first (l : list RouteNode) : option (list string) :=
             match l with
             | [] => None
             | k :: r => match route_to h k with Some p => Some p | None => first r end
             end) kids
        with
        | Some p => Some (re :: p)
        | None => None
        end
  end.

(** A path for a chain of segment patterns: each capturing pattern takes
    the next of the captured values, a literal stands for itself. *)
Fixpoint fill_captures (parts args : list string) : list string :=
  match parts with
  | [] => []
  | p :: r =>
      if String.eqb p "(\d+)" then
        match args with
        | a :: rest => a :: fill_captures r rest
        | [] => p :: fill_captures r []
        end
      else p :: fill_captures r args
  end.

(* ================================================================== *)
(** ** Dispatch to the handler methods *)

Section Dispatch.

Variable C : Collaborators.

Local Abbreviation H := (M (World C)).

Definition args0 (f : H unit) (args : list string) : H unit :=
  match args with [] => f | _ => raise TypeError end.
Definition args1 (f : string -> H unit) (args : list string) : H unit :=
  match args with [a] => f a | _ => raise TypeError end.
Definition args2 (f : string -> string -> H unit) (args : list string) : H unit :=
  match args with [a; b] => f a b | _ => raise TypeError end.
Definition args3 (f : string -> string -> string -> H unit) (args : list string) : H unit :=
  match args with [a; b; c] => f a b c | _ => raise TypeError end.

(** The method of a handler class that serves an HTTP method, with the
    path captures as its arguments.  A subclass inherits what it does not
    override; a method no class in the chain defines answers 405. *)
Definition handle (h : HandlerType) (m : HttpMethod) (args : list string) (req : Request)
  : H unit :=
  match h, m with
  | _APIVersionOneHandler, GET => args0 (_APIVersionOneHandler_get C req) args
  | _VersionHandler, GET => args0 (_VersionHandler_get C req) args
  | _MetricsHandler, GET => args0 (_MetricsHandler_get C req) args
  | _QueueHandler, GET => args0 (_QueueHandler_get C req) args
  | _SubjobsHandler, GET => args1 (_SubjobsHandler_get C req) args
  | _V2SubjobsHandler, GET => args1 (_V2SubjobsHandler_get C req) args
  | _SubjobHandler, GET => args2 (_SubjobHandler_get C req) args
  | _SubjobResultHandler, POST => args2 (_SubjobResultHandler_post C req) args
  | _SubjobResultHandler, GET => args2 (_SubjobResultHandler_get C req) args
  | _AtomsHandler, GET => args2 (_AtomsHandler_get C req) args
  | _V2AtomsHandler, GET => args2 (_V2AtomsHandler_get C req) args
  | _AtomHandler, GET => args3 (_AtomHandler_get C req) args
  | _AtomConsoleHandler, GET => args3 (_AtomConsoleHandler_get C req) args
  | _BuildsHandler, POST => args0 (_BuildsHandler_post C req) args
  | _BuildsHandler, GET => args0 (_BuildsHandler_get C req) args
  | _V2BuildsHandler, POST => args0 (_BuildsHandler_post C req) args
  | _V2BuildsHandler, GET => args0 (_V2BuildsHandler_get C req) args
  | _BuildHandler, PUT => args1 (_BuildHandler_put C req) args
  | _BuildHandler, GET => args1 (_BuildHandler_get C req) args
  | _BuildResultRedirectHandler, GET => args1 (_BuildResultRedirectHandler_get C req) args
  | _BuildTarResultHandler, GET => args1 (_BuildTarResultHandler_get C req) args
  | _BuildZipResultHandler, GET => args1 (_BuildZipResultHandler_get C req) args
  | _SlavesHandler, POST => args0 (_SlavesHandler_post C req) args
  | _SlavesHandler, GET => args0 (_SlavesHandler_get C req) args
  | _SlaveHandler, GET => args1 (_SlaveHandler_get C req) args
  | _SlaveHandler, PUT => args1 (_SlaveHandler_put C req) args
  | _EventlogHandler, GET => args0 (_EventlogHandler_get C req) args
  | _SlaveShutdownHandler, POST => args1 (_SlaveShutdownHandler_post C req) args
  | _SlavesShutdownHandler, POST => args0 (_SlavesShutdownHandler_post C req) args
  | _SlavesHeartbeatHandler, POST => args1 (_SlavesHeartbeatHandler_post C req) args
  | _, _ => raise (HTTPError 405)
  end.

End Dispatch.

(* ================================================================== *)
(** ** Compiling the route tree *)

(** Modelled from the spec: the parameter bag of a compiled route entry.
    [get_all_handlers] of [ClusterApplication] is not in this file.  The
    spec has the bag merge the process-wide default parameters with the
    node's own: the route node itself and its version tag. *)
Record Params (P : Type) : Type := mkParams {
  default_params : list (string * P);
  route_node : RouteNode;
  version_tag : option Z
}.
Arguments mkParams {P} default_params route_node version_tag.
Arguments default_params {P} p.
Arguments route_node {P} p.
Arguments version_tag {P} p.

(** Modelled from the spec: a compiled route entry, the absolute pattern,
    the handler type and the parameter bag. *)
Record Entry (P : Type) : Type := mkEntry {
  fullPattern : string;
  handlerType : HandlerType;
  parameters : Params P
}.
Arguments mkEntry {P} fullPattern handlerType parameters.
Arguments fullPattern {P} e.
Arguments handlerType {P} e.
Arguments parameters {P} e.

Definition option_Z_eqb (a b : option Z) : bool :=
  match a, b with
  | Some x, Some y => x =? y
  | None, None => true
  | _, _ => false
  end.

Inductive ConstructionError : Type := RoutingAmbiguity.

(** Modelled from the spec: the prefix segment of a version mount
    ([v1], [v2]). *)
Definition version_segment (v : Z) : list string := ["v" ++ Py.str v].

Section Compiler.

(** The segments a version mount puts before the patterns of the nodes
    it attaches.  The spec attaches a mounted subtree under a
    version-qualified prefix segment ([version_segment]); the tree of
    this file carries the [v1] segment as a node of its own, so what a
    mount contributes is left open here, and every statement about the
    compiler holds for each choice. *)
Variable mount_prefix : Z -> list string.

Context {P : Type}.

(** Modelled from the spec: the compiler's walk.  One entry per node, in
    tree pre-order; an entry's full pattern is the [/]-joined patterns
    from the root to its node, a mounted node standing after the prefix
    of its mount; the entries of a mounted subtree carry its version. *)
Fixpoint handlers_of (dp : list (string * P)) (prefix : list string)
         (inherited : option Z) (n : RouteNode) : list (Entry P) :=
  match n with
  | Node re h _ v kids =>
      let tag := match v with Some _ => v | None => inherited end in
      let segments :=
        (prefix ++ match v with Some k => mount_prefix k | None => [] end ++ [re])%list in
      mkEntry (String.concat "/" segments) h (mkParams dp n tag)
        :: flat_map (handlers_of dp segments tag) kids
  end.

Definition compile (root_route : RouteNode) (dp : list (string * P)) : list (Entry P) :=
  handlers_of dp [] None root_route.

(** Two entries a request could not be dispatched between: the same
    version and the same full pattern. *)
Definition same_route (e1 e2 : Entry P) : bool :=
  option_Z_eqb (version_tag (parameters e1)) (version_tag (parameters e2))
  && String.eqb (fullPattern e1) (fullPattern e2).

Fixpoint ambiguous (es : list (Entry P)) : bool :=
  match es with
  | [] => false
  | e :: rest => existsb (same_route e) rest || ambiguous rest
  end.

(** Modelled from the spec: [get_all_handlers(root, default_params)].
    The table is the compiler's walk; a duplicate full pattern within one
    version is a fatal error of the construction. *)
Definition get_all_handlers (root_route : RouteNode) (dp : list (string * P))
  : ConstructionError + list (Entry P) :=
  let table := compile root_route dp in
  if ambiguous table then inl RoutingAmbiguity else inr table.

(** [ClusterMasterApplication.__init__]: the table handed to the
    framework's application. *)
Definition ClusterMasterApplication_init (cluster_master : P)
  : ConstructionError + list (Entry P) :=
  let default_params := [("cluster_master", cluster_master)] in
  get_all_handlers root default_params.

End Compiler.

(** Two entries at different places of a table that share version and
    full pattern. *)
Definition Ambiguous {P : Type} (es : list (Entry P)) : Prop :=
  exists i j e1 e2,
    (i < j)%nat /\ nth_error es i = Some e1 /\ nth_error es j = Some e2
    /\ version_tag (parameters e1) = version_tag (parameters e2)
    /\ fullPattern e1 = fullPattern e2.

(* ================================================================== *)
(** ** Pagination *)

(** Modelled from the spec: what a paginating collaborator
    ([get_builds], [get_subjobs], [get_atoms] with [offset] and [limit])
    returns.  The spec has it return the sub-sequence
    [[offset, offset+limit)] of the full ordered collection, clamped to
    the collection's bounds; an argument left out is offset 0, limit
    unbounded. *)
Definition paginate {A : Type} (offset limit : option Z) (xs : list A) : list A :=
  let rest := skipn (Z.to_nat (match offset with Some o => o | None => 0 end)) xs in
  match limit with
  | Some l => firstn (Z.to_nat l) rest
  | None => rest
  end.

(* ================================================================== *)
(** ** A master for tests *)

(** A small in-memory cluster master and slave registry: the fake a test
    of the handlers would inject. *)
Module Fake.

Record FSlave : Type := { fs_id : Z; fs_url : string }.

Record FSubjob : Type := { fsj_atoms : AtomsAttr Z; fsj_slave : option FSlave }.

Record FBuild : Type := { fb_id : Z; fb_subjobs : list FSubjob }.

Record FWorld : Type := {
  w_builds : list FBuild;
  w_slaves : list FSlave;
  w_console : list (string * Json)
}.

Definition f_get_build (id : Z) (w : FWorld) : (exn + FBuild) * FWorld :=
  match find (fun b => fb_id b =? id) (w_builds w) with
  | Some b => (inr b, w)
  | None => (inl (ItemNotFoundError "Invalid build id."), w)
  end.

Definition f_get_slave_by_id (id : Z) (w : FWorld) : (exn + FSlave) * FWorld :=
  match find (fun s => fs_id s =? id) (w_slaves w) with
  | Some s => (inr s, w)
  | None => (inl (ItemNotFoundError "Invalid slave id."), w)
  end.

Definition f_get_slave_by_url (url : Json) (w : FWorld) : (exn + FSlave) * FWorld :=
  match find (fun s => match url with JStr u => String.eqb (fs_url s) u | _ => false end)
             (w_slaves w) with
  | Some s => (inr s, w)
  | None => (inl (ItemNotFoundError "Invalid slave url."), w)
  end.

Definition f_get_console_output (b s a dir : string) (max_lines : Z) (offset_line : option Z)
           (w : FWorld) : (exn + Json) * FWorld :=
  match assoc_get (b ++ "/" ++ s ++ "/" ++ a) (w_console w) with
  | Some o => (inr o, w)
  | None => (inl (ItemNotFoundError "Console output does not exist."), w)
  end.

Definition f_build_subjob (b : FBuild) (i : Z) : exn + FSubjob :=
  match Py.list_index (fb_subjobs b) i with
  | inr sj => inr sj
  | inl _ => inl (ItemNotFoundError "Invalid subjob id.")
  end.

Definition f_new_build (params : list (string * Json)) (w : FWorld)
  : (exn + bool * Json) * FWorld :=
  match assoc_get "type" params with
  | Some _ =>
      let id := Z.of_nat (length (w_builds w)) + 1 in
      (inr (true, JDict [("build_id", JInt id)]),
       {| w_builds := w_builds w ++ [{| fb_id := id; fb_subjobs := [] |}];
          w_slaves := w_slaves w; w_console := w_console w |})
  | None => (inr (false, JDict [("error", JStr "Missing required parameter")]), w)
  end.

Definition f_update_build (build_id : string) (params : list (string * Json)) (w : FWorld)
  : (exn + bool * Json) * FWorld :=
  match assoc_get "status" params with
  | Some (JStr "canceled") => (inr (true, JDict []), w)
  | _ => (inr (false, JDict [("error", JStr "Unknown update")]), w)
  end.

Definition f_set_shutdown (ids : list Z) (w : FWorld) : (exn + unit) * FWorld :=
  if forallb (fun id => existsb (fun s => fs_id s =? id) (w_slaves w)) ids
  then (inr tt, w)
  else (inl (ItemNotFoundError "Invalid slave id."), w).

Definition f_slave_repr (s : FSlave) : Json :=
  JDict [("id", JInt (fs_id s)); ("url", JStr (fs_url s))].

Definition f_subjob_repr (sj : FSubjob) : Json :=
  JDict [("slave", match fsj_slave sj with Some s => JStr (fs_url s) | None => JNull end)].

Definition f_atoms (sj : FSubjob) : list Z :=
  match fsj_atoms sj with AtomsList l => l | AtomsMethod l => l end.

Definition master : Collaborators := {|
  World := FWorld;
  Build := FBuild;
  Subjob := FSubjob;
  Atom := Z;
  Slave := FSlave;
  api_representation := fun w => (inr (JDict [("status", JStr "ok")]), w);
  active_builds := fun w => (inr (w_builds w), w);
  get_build := f_get_build;
  get_builds := fun offset limit w => (inr (paginate offset limit (w_builds w)), w);
  get_console_output := f_get_console_output;
  handle_request_for_new_build := f_new_build;
  handle_request_to_update_build := f_update_build;
  connect_slave := fun url n session w => (inr (JDict [("slave_id", JInt 1)]), w);
  handle_slave_state_update := fun s state w => (inr tt, w);
  update_slave_last_heartbeat_time := fun s w => (inr tt, w);
  set_shutdown_mode_on_slaves := f_set_shutdown;
  handle_result_reported_from_slave := fun url b s f w => (inr tt, w);
  get_path_for_build_results_archive := fun b tar w =>
    (inr ("/results/" ++ Py.str b ++
          match tar with Some true => "/results.tar.gz" | _ => "/results.zip" end), w);
  get_slave_by_url := f_get_slave_by_url;
  get_slave_by_id := f_get_slave_by_id;
  get_all_slaves_by_id := fun w => (inr (map (fun s => (fs_id s, s)) (w_slaves w)), w);
  record_event := fun e b s sl w => (inr tt, w);
  get_events := fun t i w => (inr (JList []), w);
  generate_latest := fun w => (inr "", w);
  build_api_representation := fun b => JDict [("id", JInt (fb_id b))];
  build_subjob := f_build_subjob;
  build_get_subjobs := fun b offset limit => inr (paginate offset limit (fb_subjobs b));
  subjob_api_representation := f_subjob_repr;
  subjob_atoms := fsj_atoms;
  subjob_slave := fsj_slave;
  subjob_get_atoms := fun sj offset limit => inr (paginate offset limit (f_atoms sj));
  atom_api_representation := fun a => JDict [("id", JInt a)];
  slave_api_representation := f_slave_repr;
  slave_url := fs_url;
  results_directory := "/results";
  configured_version := "1.0";
  UrlBuilder_url := fun base parts => base ++ "/v1/" ++ String.concat "/" parts;
  StaticFileHandler_get := fun root path w =>
    (if existsb (fun b => String.eqb root ("/results/" ++ Py.str (fb_id b))) (w_builds w)
     then inr tt else inl (HTTPError 404), w);
  valid_credential := fun c => String.eqb c "secret"
|}.

Definition worker7 : FSlave := {| fs_id := 7; fs_url := "http://worker-7:8080" |}.

Definition slave_n (n : Z) : FSlave :=
  {| fs_id := n; fs_url := "http://worker-" ++ Py.str n ++ ":8080" |}.

(** Build 1 has subjob 0 running on worker 7 and subjob 1 with no slave;
    each subjob has the atoms 0 and 1.  Builds 2 to 5 are empty.  Five
    slaves are registered.  No console output is stored. *)
Definition world0 : FWorld := {|
  w_builds :=
    [ {| fb_id := 1;
         fb_subjobs := [ {| fsj_atoms := AtomsList [0; 1]; fsj_slave := Some worker7 |};
                         {| fsj_atoms := AtomsList [0; 1]; fsj_slave := None |} ] |};
      {| fb_id := 2; fb_subjobs := [] |};
      {| fb_id := 3; fb_subjobs := [] |};
      {| fb_id := 4; fb_subjobs := [] |};
      {| fb_id := 5; fb_subjobs := [] |} ];
  w_slaves := [slave_n 3; slave_n 4; slave_n 5; slave_n 6; worker7];
  w_console := []
|}.

Definition start : HState FWorld := mkHState world0 [] [].

Definition request (q : list (string * string)) (cred : option string) : Request :=
  {| query := q; decoded_body := []; files := []; credential := cred; api_version := 1 |}.

End Fake.

(* ================================================================== *)
(** ** Vocabulary for statements about every handler *)

(** A string of decimal digits, as the capture [(\d+)] of a route
    delivers on ASCII input. *)
Fixpoint all_digits (s : string) : bool :=
  match s with
  | EmptyString => true
  | String c r => Py.is_digit c && all_digits r
  end.

Fixpoint no_space (s : string) : bool :=
  match s with
  | EmptyString => true
  | String c r => negb (Py.is_space c) && no_space r
  end.

Fixpoint no_slash (s : string) : bool :=
  match s with
  | EmptyString => true
  | String c r => negb (Ascii.eqb c "/") && no_slash r
  end.

(** The handler methods that hand the response to the static file
    handler: the GET of the two artifact downloads. *)
Definition serves_file (h : HandlerType) (m : HttpMethod) : bool :=
  match h, m with
  | _BuildTarResultHandler, GET | _BuildZipResultHandler, GET => true
  | _, _ => false
  end.

(** A decoded value that, where it is a string, is an ASCII string. *)
Definition json_ascii (v : Json) : bool :=
  match v with
  | JStr s => Py.is_ascii s
  | _ => true
  end.

(** Text with no character that the framework replaces in, or strips
    from, a query argument. *)
Fixpoint plain_argument (s : string) : bool :=
  match s with
  | EmptyString => true
  | String c r => negb (is_control c) && negb (Py.is_str_space c) && plain_argument r
  end.

(** The collaborator methods that only read: the lookups and listings
    of the master and the registry, the event log and the metrics text. *)
Definition read_only (m : Method) : bool :=
  match m with
  | m_api_representation | m_active_builds | m_get_build | m_get_builds
  | m_get_console_output | m_get_path_for_build_results_archive
  | r_get_slave | r_get_all_slaves_by_id | a_get_events | p_generate_latest => true
  | _ => false
  end.

(** The collaborator methods reached only through an [authenticated]
    handler method. *)
Definition behind_authentication (m : Method) : bool :=
  match m with
  | m_handle_request_for_new_build | m_handle_request_to_update_build
  | m_handle_slave_state_update | m_update_slave_last_heartbeat_time
  | m_set_shutdown_mode_on_slaves => true
  | _ => false
  end.

(** A handler step whose collaborator calls all satisfy [allowed]. *)
Definition calls_only {W A : Type} (allowed : Method -> bool) (m : M W A) : Prop :=
  forall s, exists made,
    calls (snd (m s)) = (calls s ++ made)%list /\ forallb allowed made = true.

(** A handler step that performs no response action. *)
Definition silent {W A : Type} (m : M W A) : Prop :=
  forall s, out (snd (m s)) = out s.

(** A handler step that, when it raises, has performed no response
    action. *)
Definition writes_only_on_success {W A : Type} (m : M W A) : Prop :=
  forall s e s', m s = (inl e, s') -> out s' = out s.

(** The test master's world with the console output of atom 1 of
    subjob 0 of build 1 stored on the master. *)
Definition world_with_output : Fake.FWorld := {|
  Fake.w_builds := Fake.w_builds Fake.world0;
  Fake.w_slaves := Fake.w_slaves Fake.world0;
  Fake.w_console := [("1/0/1", JDict [("content", JStr "ok"); ("num_lines", JInt 1)])]
|}.

(* ================================================================== *)
(** * Properties *)

(** ** Python built-ins *)

Lemma quote_plus_uint (d : Decimal.uint) :
  Py.quote_plus (NilEmpty.string_of_uint d) = NilEmpty.string_of_uint d.
Proof.
  induction d; simpl; try reflexivity;
    unfold Py.is_unreserved; simpl; rewrite IHd; reflexivity.
Qed.

Lemma quote_plus_str (n : Z) : Py.quote_plus (Py.str n) = Py.str n.
Proof.
  unfold Py.str, NilZero.string_of_int.
  destruct (Z.to_int n) as [d | d]; unfold NilZero.string_of_uint.
  - destruct d; try reflexivity; apply (quote_plus_uint (_ d)).
  - assert (E : forall s, Py.quote_plus (String "-" s) = String "-" (Py.quote_plus s))
      by reflexivity.
    rewrite E. f_equal.
    destruct d; try reflexivity; apply (quote_plus_uint (_ d)).
Qed.

Lemma append_assoc (a b c : string) : (a ++ b) ++ c = a ++ b ++ c.
Proof. induction a; cbn; [reflexivity | f_equal; assumption]. Qed.

Lemma append_empty_r (a : string) : a ++ "" = a.
Proof. induction a; cbn; [reflexivity | f_equal; assumption]. Qed.

Lemma urlencode_console_query (max_lines : Z) (offset_line : option Z) :
  Py.urlencode (console_query max_lines offset_line)
  = "max_lines=" ++ Py.str max_lines
    ++ match offset_line with
       | Some o => "&offset_line=" ++ Py.str o
       | None => ""
       end.
Proof.
  unfold Py.urlencode, console_query.
  destruct offset_line as [o |]; cbn [map String.concat fst snd];
    rewrite !quote_plus_str;
    replace (Py.quote_plus "max_lines") with "max_lines" by reflexivity.
  - replace (Py.quote_plus "offset_line") with "offset_line" by reflexivity.
    rewrite !append_assoc. reflexivity.
  - rewrite append_empty_r. reflexivity.
Qed.

(** ** The console handler *)

Ltac unfold_handler_monad :=
  unfold bind, try_except, call, int_str, ret, lift, raise, emit; cbn [world calls out].

(** The handler reads its two query arguments before anything else. *)
Lemma console_arguments_read
  (C : Collaborators) (req : Request) (st : HState (World C))
  (max_lines : Z) (offset_line : option Z)
  (k : Z -> option Z -> M (World C) unit) :
  console_arguments req max_lines offset_line ->
  bind (match get_query_argument (query req) "max_lines" with
        | None => ret 50
        | Some s => int_str s
        end)
    (fun ml =>
       bind (match get_query_argument (query req) "offset_line" with
             | None => ret None
             | Some s => bind (int_str s) (fun n => ret (Some n))
             end)
         (fun off => k ml off)) st
  = k max_lines offset_line st.
Proof.
  intros [Hmax Hoff]. unfold bind, int_str, ret.
  destruct (get_query_argument (query req) "max_lines");
    destruct (get_query_argument (query req) "offset_line");
    try destruct Hoff as (o & Ho & ->); subst;
    try rewrite Hmax; try rewrite Ho; reflexivity.
Qed.

(** C1: when the master's console-output store raises not-found and the
    subjob has a slave, the handler redirects to the console URL the URL
    builder gives for that slave and the same build, subjob and atom
    segments the local (v1) route has, with [max_lines] (50 when the
    client gave none) and, only when the client gave one, [offset_line]
    as the query. *)
Theorem console_not_found_redirects_to_slave
  (C : Collaborators) (req : Request) (build_id subjob_id atom_id : string)
  (st : HState (World C)) (max_lines : Z) (offset_line : option Z) (msg : string)
  (w1 w2 : World C) (b sj : Z) (build : Build C) (subjob : Subjob C) (slave : Slave C) :
  console_arguments req max_lines offset_line ->
  get_console_output C build_id subjob_id atom_id (results_directory C)
    max_lines offset_line (world st) = (inl (ItemNotFoundError msg), w1) ->
  Py.int build_id = Some b ->
  get_build C b w1 = (inr build, w2) ->
  Py.int subjob_id = Some sj ->
  build_subjob C build sj = inr subjob ->
  subjob_slave C subjob = Some slave ->
  _AtomConsoleHandler_get C req build_id subjob_id atom_id st
  = (inr tt,
     mkHState w2 (calls st ++ [m_get_console_output; m_get_build])
       (out st ++
        [Redirect
           (UrlBuilder_url C (slave_url C slave)
              ["build"; build_id; "subjob"; subjob_id; "atom"; atom_id; "console"]
            ++ "?" ++ "max_lines=" ++ Py.str max_lines
            ++ match offset_line with
               | Some o => "&offset_line=" ++ Py.str o
               | None => ""
               end)]))
  /\ (exists v1 parts,
        In v1 api_v1
        /\ route_to _AtomConsoleHandler v1 = Some ("v1" :: parts)
        /\ fill_captures parts [build_id; subjob_id; atom_id]
           = ["build"; build_id; "subjob"; subjob_id; "atom"; atom_id; "console"]).
Proof.
  intros Hargs Hstore Hb Hbuild Hsj Hsubjob Hslave. split.
  - unfold _AtomConsoleHandler_get.
    rewrite (console_arguments_read C req st max_lines offset_line
               (fun ml off => try_except _ _) Hargs).
    unfold_handler_monad. rewrite Hstore. cbn [world calls out].
    rewrite Hb. cbn [world calls out]. rewrite Hbuild. rewrite Hsj, Hsubjob, Hslave.
    cbn [world calls out]. rewrite urlencode_console_query, <- app_assoc. reflexivity.
  - exists (hd root api_v1). eexists. split; [left; reflexivity |].
    split; reflexivity.
Qed.

Lemma console_not_found_redirects_to_slave_witness :
  _AtomConsoleHandler_get Fake.master (Fake.request [] None) "1" "0" "1" Fake.start
  = (inr tt,
     mkHState Fake.world0 [m_get_console_output; m_get_build]
       [Redirect "http://worker-7:8080/v1/build/1/subjob/0/atom/1/console?max_lines=50"])
  /\ _AtomConsoleHandler_get Fake.master
       (Fake.request [("max_lines", "20"); ("offset_line", "300")] None) "1" "0" "1" Fake.start
     = (inr tt,
        mkHState Fake.world0 [m_get_console_output; m_get_build]
          [Redirect
             "http://worker-7:8080/v1/build/1/subjob/0/atom/1/console?max_lines=20&offset_line=300"]).
Proof.
  split.
  - refine (proj1 (console_not_found_redirects_to_slave Fake.master (Fake.request [] None)
                     "1" "0" "1" Fake.start 50 None _ _ _ 1 0 _ _ _
                     (conj eq_refl eq_refl) eq_refl eq_refl eq_refl eq_refl eq_refl eq_refl)).
  - refine (proj1 (console_not_found_redirects_to_slave Fake.master
                     (Fake.request [("max_lines", "20"); ("offset_line", "300")] None)
                     "1" "0" "1" Fake.start 20 (Some 300) _ _ _ 1 0 _ _ _
                     (conj eq_refl (ex_intro _ 300 (conj eq_refl eq_refl)))
                     eq_refl eq_refl eq_refl eq_refl eq_refl eq_refl)).
Defined.

(** C2: when the master's console-output store raises not-found and the
    subjob has no slave, the handler raises that same exception again: it
    writes no body and makes no redirect. *)
Theorem console_not_found_without_slave_reraises
  (C : Collaborators) (req : Request) (build_id subjob_id atom_id : string)
  (st : HState (World C)) (max_lines : Z) (offset_line : option Z) (msg : string)
  (w1 w2 : World C) (b sj : Z) (build : Build C) (subjob : Subjob C) :
  console_arguments req max_lines offset_line ->
  get_console_output C build_id subjob_id atom_id (results_directory C)
    max_lines offset_line (world st) = (inl (ItemNotFoundError msg), w1) ->
  Py.int build_id = Some b ->
  get_build C b w1 = (inr build, w2) ->
  Py.int subjob_id = Some sj ->
  build_subjob C build sj = inr subjob ->
  subjob_slave C subjob = None ->
  _AtomConsoleHandler_get C req build_id subjob_id atom_id st
  = (inl (ItemNotFoundError msg),
     mkHState w2 (calls st ++ [m_get_console_output; m_get_build]) (out st)).
Proof.
  intros Hargs Hstore Hb Hbuild Hsj Hsubjob Hslave.
  unfold _AtomConsoleHandler_get.
  rewrite (console_arguments_read C req st max_lines offset_line
             (fun ml off => try_except _ _) Hargs).
  unfold_handler_monad. rewrite Hstore. cbn [world calls out].
  rewrite Hb. cbn [world calls out]. rewrite Hbuild. rewrite Hsj, Hsubjob, Hslave.
  cbn [world calls out]. rewrite <- app_assoc. reflexivity.
Qed.

Lemma console_not_found_without_slave_reraises_witness :
  _AtomConsoleHandler_get Fake.master (Fake.request [] None) "1" "1" "0" Fake.start
  = (inl (ItemNotFoundError "Console output does not exist."),
     mkHState Fake.world0 [m_get_console_output; m_get_build] []).
Proof.
  refine (console_not_found_without_slave_reraises Fake.master (Fake.request [] None)
            "1" "1" "0" Fake.start 50 None _ _ _ 1 1 _ _
            (conj eq_refl eq_refl) eq_refl eq_refl eq_refl eq_refl eq_refl eq_refl).
Defined.

(** ** The build-result redirect *)

(** C9: a GET on the build-result entry point only redirects, to the
    path of the build's tar archive: it calls no collaborator, and the
    target is the v1 route of the tar-archive handler with the build id
    in the place of its capture. *)
Theorem build_result_is_a_pure_redirect
  (C : Collaborators) (req : Request) (build_id : string) (st : HState (World C)) :
  _BuildResultRedirectHandler_get C req build_id st
  = (inr tt,
     mkHState (world st) (calls st)
       (out st ++ [Redirect ("/v1/build/" ++ build_id ++ "/artifacts.tar.gz")]))
  /\ (exists v1 parts,
        In v1 api_v1
        /\ route_to _BuildTarResultHandler v1 = Some parts
        /\ "/v1/build/" ++ build_id ++ "/artifacts.tar.gz"
           = "/" ++ String.concat "/" (fill_captures parts [build_id])).
Proof.
  split; [reflexivity |].
  exists (hd root api_v1). eexists. split; [left; reflexivity |].
  split; reflexivity.
Qed.

(** ** The subjob-result upload *)

(** C10: a POST of a subjob result with no [file] entry raises before
    the master's [handle_result_reported_from_slave] is called: the one
    collaborator the handler has called by then is the registry's slave
    lookup, and the exception is the lookup's own or the handler's
    [RuntimeError]. *)
Theorem subjob_result_without_file_raises
  (C : Collaborators) (req : Request) (build_id subjob_id : string)
  (st : HState (World C)) :
  assoc_get "file" (files req) = None ->
  _SubjobResultHandler_post C req build_id subjob_id st
  = (inl match fst (get_slave_by_url C (dict_get (decoded_body req) "slave") (world st)) with
         | inl e => e
         | inr _ => RuntimeError "Result file not provided"
         end,
     mkHState (snd (get_slave_by_url C (dict_get (decoded_body req) "slave") (world st)))
       (calls st ++ [r_get_slave]) (out st)).
Proof.
  intros Hfile.
  unfold _SubjobResultHandler_post. rewrite Hfile. unfold_handler_monad.
  destruct (get_slave_by_url C (dict_get (decoded_body req) "slave") (world st))
    as [[e | slave] w]; reflexivity.
Qed.

Lemma subjob_result_without_file_raises_witness :
  _SubjobResultHandler_post Fake.master
    {| query := []; decoded_body := [("slave", JStr "http://worker-7:8080")];
       files := []; credential := None; api_version := 1 |} "1" "0" Fake.start
  = (inl (RuntimeError "Result file not provided"),
     mkHState Fake.world0 [r_get_slave] []).
Proof.
  refine (subjob_result_without_file_raises Fake.master
            {| query := []; decoded_body := [("slave", JStr "http://worker-7:8080")];
               files := []; credential := None; api_version := 1 |}
            "1" "0" Fake.start eq_refl).
Defined.

(** ** Authentication *)

(** C6: an unauthenticated request to build creation (v1 and v2), build
    update, slave state update or slave shutdown (one slave or several)
    is rejected before the method body runs: the handler raises the
    authentication error and its state is untouched, so no collaborator
    has been called and nothing has been written. *)
Theorem unauthenticated_mutation_is_rejected
  (C : Collaborators) (req : Request) (st : HState (World C)) :
  is_authenticated C req = false ->
  handle C _BuildsHandler POST [] req st = (inl AuthenticationError, st)
  /\ handle C _V2BuildsHandler POST [] req st = (inl AuthenticationError, st)
  /\ (forall build_id,
        handle C _BuildHandler PUT [build_id] req st = (inl AuthenticationError, st))
  /\ (forall slave_id,
        handle C _SlaveHandler PUT [slave_id] req st = (inl AuthenticationError, st))
  /\ (forall slave_id,
        handle C _SlaveShutdownHandler POST [slave_id] req st
        = (inl AuthenticationError, st))
  /\ handle C _SlavesShutdownHandler POST [] req st = (inl AuthenticationError, st).
Proof.
  intros Hauth.
  cbn [handle args0 args1].
  unfold _BuildsHandler_post, _BuildHandler_put, _SlaveHandler_put,
    _SlaveShutdownHandler_post, _SlavesShutdownHandler_post, authenticated.
  rewrite Hauth. repeat split.
Qed.

Lemma unauthenticated_mutation_is_rejected_witness :
  handle Fake.master _BuildsHandler POST []
    {| query := []; decoded_body := [("type", JStr "git")]; files := [];
       credential := Some "guess"; api_version := 1 |} Fake.start
  = (inl AuthenticationError, Fake.start).
Proof.
  refine (proj1 (unauthenticated_mutation_is_rejected Fake.master
                   {| query := []; decoded_body := [("type", JStr "git")]; files := [];
                      credential := Some "guess"; api_version := 1 |}
                   Fake.start eq_refl)).
Defined.

(** ** What the mutating endpoints report *)

(** The shutdown of one slave leaves the response as it was. *)
Lemma slave_shutdown_writes_nothing
  (C : Collaborators) (req : Request) (slave_id : string) (st : HState (World C)) :
  out (snd (_SlaveShutdownHandler_post C req slave_id st)) = out st.
Proof.
  unfold _SlaveShutdownHandler_post, authenticated.
  destruct (is_authenticated C req); [| reflexivity].
  unfold_handler_monad. destruct (Py.int slave_id); [| reflexivity].
  destruct (set_shutdown_mode_on_slaves C _ (world st)) as [[e | []] w]; reflexivity.
Qed.

(** The shutdown of several slaves leaves the response as it was. *)
Lemma slaves_shutdown_writes_nothing
  (C : Collaborators) (req : Request) (st : HState (World C)) :
  out (snd (_SlavesShutdownHandler_post C req st)) = out st.
Proof.
  unfold _SlavesShutdownHandler_post, authenticated.
  destruct (is_authenticated C req); [| reflexivity].
  destruct (truthy (dict_get (decoded_body req) "shutdown_all")).
  - unfold_handler_monad.
    destruct (get_all_slaves_by_id C (world st)) as [[e | slaves] w]; [reflexivity |].
    cbn [world calls out].
    destruct (set_shutdown_mode_on_slaves C _ w) as [[e | []] w']; reflexivity.
  - unfold_handler_monad.
    destruct (json_iter (dict_get (decoded_body req) "slaves")) as [e | ids]; [reflexivity |].
    destruct (map_exn json_int ids) as [e | zs]; [reflexivity |].
    destruct (set_shutdown_mode_on_slaves C _ (world st)) as [[e | []] w]; reflexivity.
Qed.

(** C7, as stated, fails: an authenticated shutdown of slave 7 succeeds
    and writes no envelope, and an authenticated shutdown of the unknown
    slave 99 leaves the handler as the collaborator's exception, again
    with no envelope. *)
Lemma slave_shutdown_reports_no_envelope :
  _SlaveShutdownHandler_post Fake.master (Fake.request [] (Some "secret")) "7" Fake.start
  = (inr tt, mkHState Fake.world0 [m_set_shutdown_mode_on_slaves] [])
  /\ ~ reports_envelope
         (out (snd (_SlaveShutdownHandler_post Fake.master
                      (Fake.request [] (Some "secret")) "7" Fake.start)))
  /\ _SlaveShutdownHandler_post Fake.master (Fake.request [] (Some "secret")) "99" Fake.start
     = (inl (ItemNotFoundError "Invalid slave id."),
        mkHState Fake.world0 [m_set_shutdown_mode_on_slaves] []).
Proof.
  split; [reflexivity |]. split; [| reflexivity].
  intros (r & ok & code & HIn). exact HIn.
Qed.

(** C7, amended: for an authenticated request, build creation and build
    update report the pair the master returns through [_write_status],
    with status 202 (creation) or 200 (update) when it is a success and
    400 when it is not.  The slave state update, after the state update
    and the heartbeat refresh, reports the slave's representation through
    [_write_status] with the default success flag and status.  The
    shutdown handlers call [set_shutdown_mode_on_slaves], with the
    captured id, with every registered id under a true [shutdown_all], or
    with the listed ids, and write nothing, whatever the outcome.  An
    exception the master raises leaves the handler as it is, with
    nothing written. *)
Theorem mutating_endpoints_report
  (C : Collaborators) (req : Request) (st : HState (World C)) :
  is_authenticated C req = true ->
  (forall success response w,
      handle_request_for_new_build C (decoded_body req) (world st)
      = (inr (success, response), w) ->
      _BuildsHandler_post C req st
      = (inr tt,
         mkHState w (calls st ++ [m_handle_request_for_new_build])
           (out st ++ [WriteStatus (Some response) (Some success)
                         (Some (if success then 202 else 400))])))
  /\ (forall build_id success response w,
        handle_request_to_update_build C build_id (decoded_body req) (world st)
        = (inr (success, response), w) ->
        _BuildHandler_put C req build_id st
        = (inr tt,
           mkHState w (calls st ++ [m_handle_request_to_update_build])
             (out st ++ [WriteStatus (Some response) (Some success)
                           (Some (if success then 200 else 400))])))
  /\ (forall e w,
        handle_request_for_new_build C (decoded_body req) (world st) = (inl e, w) ->
        _BuildsHandler_post C req st
        = (inl e, mkHState w (calls st ++ [m_handle_request_for_new_build]) (out st)))
  /\ (forall build_id e w,
        handle_request_to_update_build C build_id (decoded_body req) (world st)
        = (inl e, w) ->
        _BuildHandler_put C req build_id st
        = (inl e, mkHState w (calls st ++ [m_handle_request_to_update_build]) (out st)))
  /\ (forall slave_id state sid slave w1 w2 w3,
        json_get (dict_get_or_empty (decoded_body req) "slave") "state" = inr state ->
        Py.int slave_id = Some sid ->
        get_slave_by_id C sid (world st) = (inr slave, w1) ->
        handle_slave_state_update C slave state w1 = (inr tt, w2) ->
        update_slave_last_heartbeat_time C slave w2 = (inr tt, w3) ->
        _SlaveHandler_put C req slave_id st
        = (inr tt,
           mkHState w3
             (calls st ++ [r_get_slave; m_handle_slave_state_update;
                           m_update_slave_last_heartbeat_time])
             (out st ++
              [WriteStatus (Some (JDict [("slave", slave_api_representation C slave)]))
                 None None])))
  /\ (forall slave_id state sid slave w1 e w2,
        json_get (dict_get_or_empty (decoded_body req) "slave") "state" = inr state ->
        Py.int slave_id = Some sid ->
        get_slave_by_id C sid (world st) = (inr slave, w1) ->
        handle_slave_state_update C slave state w1 = (inl e, w2) ->
        _SlaveHandler_put C req slave_id st
        = (inl e,
           mkHState w2 (calls st ++ [r_get_slave; m_handle_slave_state_update]) (out st)))
  /\ (forall slave_id sid,
        Py.int slave_id = Some sid ->
        _SlaveShutdownHandler_post C req slave_id st
        = (fst (set_shutdown_mode_on_slaves C [sid] (world st)),
           mkHState (snd (set_shutdown_mode_on_slaves C [sid] (world st)))
             (calls st ++ [m_set_shutdown_mode_on_slaves]) (out st)))
  /\ (forall slaves w1,
        truthy (dict_get (decoded_body req) "shutdown_all") = true ->
        get_all_slaves_by_id C (world st) = (inr slaves, w1) ->
        _SlavesShutdownHandler_post C req st
        = (fst (set_shutdown_mode_on_slaves C (map fst slaves) w1),
           mkHState (snd (set_shutdown_mode_on_slaves C (map fst slaves) w1))
             (calls st ++ [r_get_all_slaves_by_id; m_set_shutdown_mode_on_slaves])
             (out st)))
  /\ (forall items ids,
        truthy (dict_get (decoded_body req) "shutdown_all") = false ->
        dict_get (decoded_body req) "slaves" = JList items ->
        map_exn json_int items = inr ids ->
        _SlavesShutdownHandler_post C req st
        = (fst (set_shutdown_mode_on_slaves C ids (world st)),
           mkHState (snd (set_shutdown_mode_on_slaves C ids (world st)))
             (calls st ++ [m_set_shutdown_mode_on_slaves]) (out st)))
  /\ (forall slave_id,
        out (snd (_SlaveShutdownHandler_post C req slave_id st)) = out st)
  /\ out (snd (_SlavesShutdownHandler_post C req st)) = out st.
Proof.
  intros Hauth.
  split; [| split; [| split; [| split]]];
    try (intros; unfold _BuildsHandler_post, _BuildHandler_put, authenticated;
         rewrite Hauth; unfold_handler_monad; rewrite H; reflexivity).
  split; [| split].
  - intros slave_id state sid slave w1 w2 w3 Hstate Hsid Hslave Hupdate Hbeat.
    unfold _SlaveHandler_put, authenticated. rewrite Hauth. unfold_handler_monad.
    rewrite Hstate, Hsid, Hslave. cbn [world calls out]. rewrite Hupdate.
    cbn [world calls out]. rewrite Hbeat. cbn [world calls out].
    rewrite <- !app_assoc. reflexivity.
  - intros slave_id state sid slave w1 e w2 Hstate Hsid Hslave Hupdate.
    unfold _SlaveHandler_put, authenticated. rewrite Hauth. unfold_handler_monad.
    rewrite Hstate, Hsid, Hslave. cbn [world calls out]. rewrite Hupdate.
    cbn [world calls out]. rewrite <- app_assoc. reflexivity.
  - split; [| split; [| split; [| split]]].
    + intros slave_id sid Hsid.
      unfold _SlaveShutdownHandler_post, authenticated. rewrite Hauth.
      unfold_handler_monad. rewrite Hsid.
      destruct (set_shutdown_mode_on_slaves C [sid] (world st)) as [[e | []] w];
        reflexivity.
    + intros slaves w1 Hall Hslaves.
      unfold _SlavesShutdownHandler_post, authenticated. rewrite Hauth, Hall.
      unfold_handler_monad. rewrite Hslaves. cbn [world calls out].
      destruct (set_shutdown_mode_on_slaves C (map fst slaves) w1) as [[e | []] w2];
        cbn [fst snd]; rewrite <- app_assoc; reflexivity.
    + intros items ids Hall Hitems Hids.
      unfold _SlavesShutdownHandler_post, authenticated. rewrite Hauth, Hall.
      unfold_handler_monad. rewrite Hitems. cbn [json_iter]. rewrite Hids.
      destruct (set_shutdown_mode_on_slaves C ids (world st)) as [[e | []] w];
        reflexivity.
    + intros slave_id. apply slave_shutdown_writes_nothing.
    + apply slaves_shutdown_writes_nothing.
Qed.

Lemma mutating_endpoints_report_witness :
  _BuildsHandler_post Fake.master
    {| query := []; decoded_body := [("type", JStr "git")]; files := [];
       credential := Some "secret"; api_version := 1 |} Fake.start
  = (inr tt,
     mkHState
       {| Fake.w_builds :=
            Fake.w_builds Fake.world0 ++ [{| Fake.fb_id := 6; Fake.fb_subjobs := [] |}];
          Fake.w_slaves := Fake.w_slaves Fake.world0;
          Fake.w_console := [] |}
       [m_handle_request_for_new_build]
       [WriteStatus (Some (JDict [("build_id", JInt 6)])) (Some true) (Some 202)])
  /\ _BuildsHandler_post Fake.master (Fake.request [] (Some "secret")) Fake.start
     = (inr tt,
        mkHState Fake.world0 [m_handle_request_for_new_build]
          [WriteStatus (Some (JDict [("error", JStr "Missing required parameter")]))
             (Some false) (Some 400)]).
Proof.
  split.
  - refine (proj1 (mutating_endpoints_report Fake.master
                     {| query := []; decoded_body := [("type", JStr "git")]; files := [];
                        credential := Some "secret"; api_version := 1 |}
                     Fake.start eq_refl) true _ _ eq_refl).
  - refine (proj1 (mutating_endpoints_report Fake.master (Fake.request [] (Some "secret"))
                     Fake.start eq_refl) false _ _ eq_refl).
Defined.

(** ** Fetching one atom *)

(** C8: where the build and the subjob exist, an atom id past the end of
    the subjob's atom list leaves [_AtomHandler.get] as Python's
    [IndexError] (and an [atoms] attribute that is a method, as
    [TypeError]): the handler raises no [ItemNotFoundError] of its own. *)
Theorem atom_out_of_range_raises_index_error
  (C : Collaborators) (req : Request) (build_id subjob_id atom_id : string)
  (st : HState (World C)) (b sj a : Z) (w : World C) (build : Build C) (subjob : Subjob C) :
  Py.int build_id = Some b ->
  get_build C b (world st) = (inr build, w) ->
  Py.int subjob_id = Some sj ->
  build_subjob C build sj = inr subjob ->
  Py.int atom_id = Some a ->
  (forall atoms,
      subjob_atoms C subjob = AtomsList atoms ->
      Z.of_nat (length atoms) <= a ->
      _AtomHandler_get C req build_id subjob_id atom_id st
      = (inl IndexError, mkHState w (calls st ++ [m_get_build]) (out st)))
  /\ (forall atoms,
        subjob_atoms C subjob = AtomsMethod atoms ->
        _AtomHandler_get C req build_id subjob_id atom_id st
        = (inl TypeError, mkHState w (calls st ++ [m_get_build]) (out st))).
Proof.
  intros Hb Hbuild Hsj Hsubjob Ha.
  split; intros atoms Hatoms; [intros Hlen |];
    unfold _AtomHandler_get; unfold_handler_monad;
    rewrite Hb, Hbuild, Hsj, Hsubjob, Ha, Hatoms; cbn [index_atoms world calls out].
  - unfold Py.list_index.
    destruct (a <? 0) eqn:Hneg; [lia |].
    destruct (0 <=? a) eqn:Hpos; [| reflexivity].
    destruct (a <? Z.of_nat (length atoms)) eqn:Hlt; [lia | reflexivity].
  - reflexivity.
Qed.

Lemma atom_out_of_range_raises_index_error_witness :
  _AtomHandler_get Fake.master (Fake.request [] None) "1" "0" "7" Fake.start
  = (inl IndexError, mkHState Fake.world0 [m_get_build] []).
Proof.
  refine (proj1 (atom_out_of_range_raises_index_error Fake.master (Fake.request [] None)
                   "1" "0" "7" Fake.start 1 0 7 _ _ _
                   eq_refl eq_refl eq_refl eq_refl eq_refl) [0; 1] eq_refl _).
  cbn. lia.
Defined.

(** ** Listings *)

Lemma bind_value {W A B : Type} (m : M W A) (k : A -> M W B) (s s' : HState W) (a : A) :
  m s = (inr a, s') -> bind m k s = k a s'.
Proof. intros E. unfold bind. rewrite E. reflexivity. Qed.

Lemma paginate_out_of_range {A : Type} (offset : Z) (limit : option Z) (xs : list A) :
  Z.of_nat (length xs) <= offset -> paginate (Some offset) limit xs = [].
Proof.
  intros Hlen. unfold paginate.
  rewrite skipn_all2 by lia.
  destruct limit; [apply firstn_nil | reflexivity].
Qed.

(** C4, as stated, fails: the v2 listing of slaves is served by
    [_SlavesHandler], which reads no query parameter.  With five slaves
    registered, [offset=0&limit=2] and [offset=10] both return all five,
    not the sub-sequence. *)
Lemma v2_slaves_listing_is_not_paginated :
  handler_at api_v2 ["slaves"] = Some _SlavesHandler
  /\ handle Fake.master _SlavesHandler GET []
       (Fake.request [("offset", "0"); ("limit", "2")] None) Fake.start
     = (inr tt,
        mkHState Fake.world0 [r_get_all_slaves_by_id]
          [Write (JDict [("slaves",
                          JList (map Fake.f_slave_repr (Fake.w_slaves Fake.world0)))])])
  /\ map Fake.f_slave_repr (Fake.w_slaves Fake.world0)
     <> map Fake.f_slave_repr (paginate (Some 0) (Some 2) (Fake.w_slaves Fake.world0))
  /\ handle Fake.master _SlavesHandler GET [] (Fake.request [("offset", "10")] None) Fake.start
     = (inr tt,
        mkHState Fake.world0 [r_get_all_slaves_by_id]
          [Write (JDict [("slaves",
                          JList (map Fake.f_slave_repr (Fake.w_slaves Fake.world0)))])])
  /\ map Fake.f_slave_repr (Fake.w_slaves Fake.world0)
     <> map Fake.f_slave_repr (paginate (Some 10) None (Fake.w_slaves Fake.world0)).
Proof.
  repeat split; try reflexivity; intros E; discriminate E.
Qed.

(** C4, amended: the v2 listings of builds, subjobs and atoms read
    [offset] and [limit] and hand them to the collaborator, whose result
    they write in its order; where the collaborator returns the
    sub-sequence from [offset] of at most [limit] items, so does the
    listing, and an offset past the end gives the empty list.  The v1
    listings of builds and subjobs (and of atoms, where [atoms] can be
    called) and the listing of slaves in both versions read neither
    parameter and write the full collection. *)
Theorem listings_paginate_in_v2_except_slaves
  (C : Collaborators) (req : Request) (st : HState (World C))
  (offset : Z) (limit : option Z) :
  get_pagination_params C req st = (inr (offset, limit), st) ->
  (handler_at api_v2 ["builds"] = Some _V2BuildsHandler
   /\ handler_at api_v2 ["builds"; "(\d+)"; "subjobs"] = Some _V2SubjobsHandler
   /\ handler_at api_v2 ["builds"; "(\d+)"; "subjobs"; "(\d+)"; "atoms"] = Some _V2AtomsHandler
   /\ handler_at api_v2 ["slaves"] = Some _SlavesHandler
   /\ handler_at api_v1 ["v1"; "build"] = Some _BuildsHandler
   /\ handler_at api_v1 ["v1"; "build"; "(\d+)"; "subjob"] = Some _SubjobsHandler
   /\ handler_at api_v1 ["v1"; "build"; "(\d+)"; "subjob"; "(\d+)"; "atom"] = Some _AtomsHandler
   /\ handler_at api_v1 ["v1"; "slave"] = Some _SlavesHandler)
  /\ (forall full w,
        get_builds C None None (world st) = (inr full, w) ->
        get_builds C (Some offset) limit (world st)
        = (inr (paginate (Some offset) limit full), w) ->
        handle C _V2BuildsHandler GET [] req st
        = (inr tt,
           mkHState w (calls st ++ [m_get_builds])
             (out st ++
              [Write (JDict [("builds",
                              JList (map (build_api_representation C)
                                       (paginate (Some offset) limit full)))])]))
        /\ handle C _BuildsHandler GET [] req st
           = (inr tt,
              mkHState w (calls st ++ [m_get_builds])
                (out st ++
                 [Write (JDict [("builds", JList (map (build_api_representation C) full))])])))
  /\ (forall build_id b build w full,
        Py.int build_id = Some b ->
        get_build C b (world st) = (inr build, w) ->
        build_get_subjobs C build None None = inr full ->
        build_get_subjobs C build (Some offset) limit
        = inr (paginate (Some offset) limit full) ->
        handle C _V2SubjobsHandler GET [build_id] req st
        = (inr tt,
           mkHState w (calls st ++ [m_get_build])
             (out st ++
              [Write (JDict [("subjobs",
                              JList (map (subjob_api_representation C)
                                       (paginate (Some offset) limit full)))])]))
        /\ handle C _SubjobsHandler GET [build_id] req st
           = (inr tt,
              mkHState w (calls st ++ [m_get_build])
                (out st ++
                 [Write (JDict [("subjobs",
                                 JList (map (subjob_api_representation C) full))])])))
  /\ (forall build_id subjob_id b sj build w subjob full,
        Py.int build_id = Some b ->
        get_build C b (world st) = (inr build, w) ->
        Py.int subjob_id = Some sj ->
        build_subjob C build sj = inr subjob ->
        subjob_get_atoms C subjob (Some offset) limit
        = inr (paginate (Some offset) limit full) ->
        handle C _V2AtomsHandler GET [build_id; subjob_id] req st
        = (inr tt,
           mkHState w (calls st ++ [m_get_build])
             (out st ++
              [Write (JDict [("atoms",
                              JList (map (atom_api_representation C)
                                       (paginate (Some offset) limit full)))])]))
        /\ (subjob_atoms C subjob = AtomsMethod full ->
            handle C _AtomsHandler GET [build_id; subjob_id] req st
            = (inr tt,
               mkHState w (calls st ++ [m_get_build])
                 (out st ++
                  [Write (JDict [("atoms",
                                  JList (map (atom_api_representation C) full))])]))))
  /\ (forall slaves w,
        get_all_slaves_by_id C (world st) = (inr slaves, w) ->
        handle C _SlavesHandler GET [] req st
        = (inr tt,
           mkHState w (calls st ++ [r_get_all_slaves_by_id])
             (out st ++
              [Write (JDict [("slaves",
                              JList (map (fun kv => slave_api_representation C (snd kv))
                                       slaves))])])))
  /\ (forall (A : Type) (xs : list A),
        Z.of_nat (length xs) <= offset -> paginate (Some offset) limit xs = []).
Proof.
  intros Hparams.
  split; [repeat split |].
  split.
  { intros full w Hall Hpage. cbn [handle args0]. split.
    - unfold _V2BuildsHandler_get. rewrite (bind_value _ _ _ _ _ Hparams).
      cbn [fst snd]. unfold_handler_monad. rewrite Hpage. reflexivity.
    - unfold _BuildsHandler_get. unfold_handler_monad. rewrite Hall. reflexivity. }
  split.
  { intros build_id b build w full Hb Hbuild Hall Hpage. cbn [handle args1]. split.
    - unfold _V2SubjobsHandler_get. rewrite (bind_value _ _ _ _ _ Hparams).
      cbn [fst snd]. unfold_handler_monad. rewrite Hb, Hbuild, Hpage. reflexivity.
    - unfold _SubjobsHandler_get. unfold_handler_monad. rewrite Hb, Hbuild, Hall.
      reflexivity. }
  split.
  { intros build_id subjob_id b sj build w subjob full Hb Hbuild Hsj Hsubjob Hpage.
    cbn [handle args2]. split.
    - unfold _V2AtomsHandler_get. rewrite (bind_value _ _ _ _ _ Hparams).
      cbn [fst snd]. unfold_handler_monad. rewrite Hb, Hbuild, Hsj, Hsubjob, Hpage.
      reflexivity.
    - intros Hatoms. unfold _AtomsHandler_get. unfold_handler_monad.
      rewrite Hb, Hbuild, Hsj, Hsubjob, Hatoms. reflexivity. }
  split.
  { intros slaves w Hslaves. cbn [handle args0].
    unfold _SlavesHandler_get. unfold_handler_monad. rewrite Hslaves. reflexivity. }
  intros A xs. apply paginate_out_of_range.
Qed.

Lemma listings_paginate_in_v2_except_slaves_witness :
  (handle Fake.master _V2BuildsHandler GET []
     (Fake.request [("offset", "0"); ("limit", "2")] None) Fake.start
   = (inr tt,
      mkHState Fake.world0 [m_get_builds]
        [Write (JDict [("builds", JList [JDict [("id", JInt 1)]; JDict [("id", JInt 2)]])])]))
  /\ (handle Fake.master _V2BuildsHandler GET [] (Fake.request [("offset", "10")] None)
        Fake.start
      = (inr tt, mkHState Fake.world0 [m_get_builds] [Write (JDict [("builds", JList [])])])).
Proof.
  split.
  - refine (proj1 (proj1 (proj2
             (listings_paginate_in_v2_except_slaves Fake.master
                (Fake.request [("offset", "0"); ("limit", "2")] None) Fake.start
                0 (Some 2) eq_refl)) _ _ eq_refl eq_refl)).
  - refine (proj1 (proj1 (proj2
             (listings_paginate_in_v2_except_slaves Fake.master
                (Fake.request [("offset", "10")] None) Fake.start
                10 None eq_refl)) _ _ eq_refl eq_refl)).
Defined.

(** ** The route-tree compiler *)

Section CompilerFacts.

Variable mount_prefix : Z -> list string.

Context {P : Type}.

Lemma same_route_spec (e1 e2 : Entry P) :
  same_route e1 e2 = true
  <-> version_tag (parameters e1) = version_tag (parameters e2)
      /\ fullPattern e1 = fullPattern e2.
Proof.
  unfold same_route. rewrite andb_true_iff, String.eqb_eq.
  destruct (version_tag (parameters e1)) as [x |], (version_tag (parameters e2)) as [y |];
    cbn [option_Z_eqb]; try rewrite Z.eqb_eq;
    split; intros [Hv Hp]; split; try assumption; try congruence; try discriminate.
Qed.

(** The check the construction makes finds exactly the ambiguous tables. *)
Lemma ambiguous_spec (es : list (Entry P)) : ambiguous es = true <-> Ambiguous es.
Proof.
  induction es as [| e rest IH]; cbn [ambiguous].
  - split; [discriminate |].
    intros (i & j & e1 & e2 & _ & Hi & _). destruct i; discriminate Hi.
  - rewrite orb_true_iff, existsb_exists, IH. split.
    + intros [(e2 & Hin & Hsame) | (i & j & e1 & e2 & Hlt & Hi & Hj & Hv & Hp)].
      * apply In_nth_error in Hin. destruct Hin as [j Hj].
        apply same_route_spec in Hsame. destruct Hsame as [Hv Hp].
        exists 0%nat, (S j), e, e2. repeat split; try assumption. lia.
      * exists (S i), (S j), e1, e2. repeat split; try assumption. lia.
    + intros (i & j & e1 & e2 & Hlt & Hi & Hj & Hv & Hp).
      destruct j as [| j]; [lia |]. cbn [nth_error] in Hj.
      destruct i as [| i].
      * cbn [nth_error] in Hi. injection Hi as <-.
        left. exists e2. split; [eapply nth_error_In; eassumption |].
        apply same_route_spec. split; assumption.
      * cbn [nth_error] in Hi. right.
        exists i, j, e1, e2. repeat split; try assumption. lia.
Qed.

End CompilerFacts.

(** C5: the construction of the table fails with the routing ambiguity
    exactly when two of its entries share version and full pattern, and
    a table it returns has no such pair, so dispatch never meets one.
    The tree of the application, where [slave/(\d+)] and
    [slave/shutdown] differ in a captured against a literal segment, is
    accepted; two siblings with the same pattern are refused. *)
Theorem routing_ambiguity_is_a_construction_error
  (mount_prefix : Z -> list string) (P : Type)
  (root_route : RouteNode) (dp : list (string * P)) :
  ((get_all_handlers mount_prefix root_route dp = inl RoutingAmbiguity
    /\ Ambiguous (compile mount_prefix root_route dp))
   \/ (get_all_handlers mount_prefix root_route dp = inr (compile mount_prefix root_route dp)
       /\ ~ Ambiguous (compile mount_prefix root_route dp)))
  /\ (forall cluster_master : P,
        ClusterMasterApplication_init version_segment cluster_master
        = inr (compile version_segment root [("cluster_master", cluster_master)])
        /\ ClusterMasterApplication_init (fun _ => []) cluster_master
           = inr (compile (fun _ => []) root [("cluster_master", cluster_master)]))
  /\ get_all_handlers mount_prefix
       (add_children (route "slave" _SlavesHandler)
          [route "(\d+)" _SlaveHandler; route "shutdown" _SlavesShutdownHandler] None) dp
     = inr (compile mount_prefix
              (add_children (route "slave" _SlavesHandler)
                 [route "(\d+)" _SlaveHandler; route "shutdown" _SlavesShutdownHandler] None)
              dp)
  /\ get_all_handlers mount_prefix
       (add_children (route "slave" _SlavesHandler)
          [route "shutdown" _SlaveShutdownHandler; route "shutdown" _SlavesShutdownHandler]
          None) dp
     = inl RoutingAmbiguity.
Proof.
  split.
  - unfold get_all_handlers.
    destruct (ambiguous (compile mount_prefix root_route dp)) eqn:Hcheck.
    + left. split; [reflexivity | apply ambiguous_spec; assumption].
    + right. split; [reflexivity |].
      intros Hamb. apply ambiguous_spec in Hamb. congruence.
  - split.
    + intros cluster_master. unfold ClusterMasterApplication_init, get_all_handlers.
      replace (ambiguous (compile version_segment root [("cluster_master", cluster_master)]))
        with false by (vm_compute; reflexivity).
      replace (ambiguous (compile (fun _ => []) root [("cluster_master", cluster_master)]))
        with false by (vm_compute; reflexivity).
      split; reflexivity.
    + split; reflexivity.
Qed.

(* ================================================================== *)
(** * Further properties of the handlers *)

(** ** Integers in text *)

Lemma parse_digits_step (c : ascii) (r : string) (acc : Z) (b : bool) :
  Py.is_digit c = true ->
  Py.parse_digits (String c r) acc b = Py.parse_digits r (10 * acc + Py.digit_value c) true.
Proof. intros H. cbn [Py.parse_digits]. rewrite H. reflexivity. Qed.

Lemma parse_digits_uint_acc (d : Decimal.uint) :
  forall a : positive,
    Py.parse_digits (NilEmpty.string_of_uint d) (Z.pos a) true
    = Some (Z.pos (Pos.of_uint_acc d a)).
Proof.
  induction d; intros a; cbn [NilEmpty.string_of_uint Pos.of_uint_acc];
    try reflexivity;
    rewrite parse_digits_step by reflexivity;
    match goal with
    | |- Py.parse_digits _ ?z true = Some (Z.pos (Pos.of_uint_acc _ ?p)) =>
        replace z with (Z.pos p)
          by (match goal with
              | |- context [Py.digit_value ?c] =>
                  let v := eval vm_compute in (Py.digit_value c) in
                  change (Py.digit_value c) with v
              end; lia)
    end; apply IHd.
Qed.

Lemma parse_digits_uint (d : Decimal.uint) :
  Py.parse_digits (NilEmpty.string_of_uint d) 0 true = Some (Z.of_N (Pos.of_uint d)).
Proof.
  induction d; cbn [NilEmpty.string_of_uint Pos.of_uint]; try reflexivity;
    rewrite parse_digits_step by reflexivity;
    [exact IHd | apply (parse_digits_uint_acc d _) ..].
Qed.

Lemma rev_string_involutive (s : string) : Py.rev_string "" (Py.rev_string "" s) = s.
Proof.
  assert (G : forall s acc, Py.rev_string "" (Py.rev_string acc s) = Py.rev_string s acc).
  { clear s. induction s as [| c r IH]; intros acc; cbn [Py.rev_string];
      [reflexivity | rewrite IH; reflexivity]. }
  rewrite G. reflexivity.
Qed.

Lemma no_space_rev (s acc : string) :
  no_space s = true -> no_space acc = true -> no_space (Py.rev_string acc s) = true.
Proof.
  revert acc. induction s as [| c r IH]; intros acc Hs Hacc; cbn [Py.rev_string];
    [assumption |].
  cbn [no_space] in Hs. apply andb_true_iff in Hs. destruct Hs as [Hc Hr].
  apply IH; [assumption |]. cbn [no_space]. rewrite Hc, Hacc. reflexivity.
Qed.

Lemma lstrip_no_space (s : string) : no_space s = true -> Py.lstrip s = s.
Proof.
  destruct s as [| c r]; [reflexivity |]. cbn [no_space Py.lstrip].
  intros H. apply andb_true_iff in H. destruct H as [Hc _].
  destruct (Py.is_space c); [discriminate Hc | reflexivity].
Qed.

(** Text without white space is what [strip] returns for it. *)
Lemma strip_no_space (s : string) : no_space s = true -> Py.strip s = s.
Proof.
  intros H. unfold Py.strip. rewrite (lstrip_no_space s H).
  rewrite lstrip_no_space by (apply no_space_rev; [assumption | reflexivity]).
  apply rev_string_involutive.
Qed.

Lemma no_space_uint (d : Decimal.uint) : no_space (NilEmpty.string_of_uint d) = true.
Proof. induction d; cbn; try reflexivity; assumption. Qed.

(** [int(str(n))] is [n]. *)
Lemma int_str_round_trip (n : Z) : Py.int (Py.str n) = Some n.
Proof.
  destruct n as [| p | p]; [reflexivity | |];
    unfold Py.str, Z.to_int, NilZero.string_of_int, NilZero.string_of_uint;
    pose proof (Unsigned.to_uint_nonnil p) as Hnil;
    pose proof (DecimalPos.Unsigned.of_to p) as Hback;
    pose proof (parse_digits_uint (Pos.to_uint p)) as Hparse;
    pose proof (no_space_uint (Pos.to_uint p)) as Hspace;
    rewrite Hback in Hparse; cbn [Z.of_N] in Hparse;
    unfold Py.int.
  - rewrite strip_no_space
      by (destruct (Pos.to_uint p); [contradiction | assumption ..]).
    destruct (Pos.to_uint p); [contradiction | ..];
      cbn [NilEmpty.string_of_uint] in *;
      rewrite parse_digits_step by reflexivity;
      rewrite parse_digits_step in Hparse by reflexivity; exact Hparse.
  - rewrite strip_no_space
      by (destruct (Pos.to_uint p); [contradiction | ..]; cbn [no_space]; assumption).
    assert (E : forall s, Py.parse_digits s 0 true = Some (Z.pos p) -> s <> "" ->
                          Py.is_digit match s with String c _ => c | _ => "0"%char end = true ->
                          option_map Z.opp (Py.parse_digits s 0 false) = Some (Z.neg p)).
    { intros s Hs Hne Hd. destruct s as [| c r]; [contradiction |].
      rewrite parse_digits_step by assumption.
      rewrite parse_digits_step in Hs by assumption. rewrite Hs. reflexivity. }
    destruct (Pos.to_uint p); [contradiction | ..];
      cbn [NilEmpty.string_of_uint] in *;
      (apply E; [exact Hparse | discriminate | reflexivity]).
Qed.

Lemma digit_is_plain (c : ascii) :
  Py.is_digit c = true ->
  Py.is_space c = false /\ c <> "-"%char /\ c <> "+"%char /\ 0 <= Py.digit_value c <= 9.
Proof.
  destruct c as [[] [] [] [] [] [] [] []]; intros H; try discriminate H;
    (split; [reflexivity |]; split; [discriminate |]; split; [discriminate |];
     vm_compute; split; discriminate).
Qed.

Lemma all_digits_no_space (s : string) : all_digits s = true -> no_space s = true.
Proof.
  induction s as [| c r IH]; [reflexivity |]. cbn [all_digits no_space].
  intros H. apply andb_true_iff in H. destruct H as [Hc Hr].
  destruct (digit_is_plain c Hc) as [-> _]. exact (IH Hr).
Qed.

Lemma parse_all_digits (s : string) :
  all_digits s = true ->
  forall acc, 0 <= acc -> exists n, Py.parse_digits s acc true = Some n /\ 0 <= n.
Proof.
  induction s as [| c r IH]; intros H acc Hacc.
  - exists acc. split; [reflexivity | assumption].
  - cbn [all_digits] in H. apply andb_true_iff in H. destruct H as [Hc Hr].
    rewrite parse_digits_step by assumption.
    apply (IH Hr). destruct (digit_is_plain c Hc) as (_ & _ & _ & Hv). lia.
Qed.

(** A non-empty string of digits, which is what a [(\d+)] capture is, is
    an integer for [int], and not a negative one. *)
Lemma int_of_digits (s : string) :
  all_digits s = true -> s <> "" -> exists n, Py.int s = Some n /\ 0 <= n.
Proof.
  intros H Hne. unfold Py.int. rewrite (strip_no_space s (all_digits_no_space s H)).
  destruct s as [| c r]; [contradiction |].
  pose proof H as H'. cbn [all_digits] in H'. apply andb_true_iff in H'.
  destruct H' as [Hc Hr].
  destruct (digit_is_plain c Hc) as (_ & Hminus & Hplus & Hv).
  assert (E : match String c r with
              | String "-" r' => option_map Z.opp (Py.parse_digits r' 0 false)
              | String "+" r' => Py.parse_digits r' 0 false
              | r' => Py.parse_digits r' 0 false
              end = Py.parse_digits (String c r) 0 false).
  { destruct c as [[] [] [] [] [] [] [] []]; try reflexivity; congruence. }
  rewrite E, parse_digits_step by assumption.
  apply (parse_all_digits r Hr). lia.
Qed.

Lemma plain_argument_rev (s acc : string) :
  plain_argument s = true -> plain_argument acc = true ->
  plain_argument (Py.rev_string acc s) = true.
Proof.
  revert acc. induction s as [| c r IH]; intros acc Hs Hacc; cbn [Py.rev_string];
    [assumption |].
  cbn [plain_argument] in Hs. apply andb_true_iff in Hs. destruct Hs as [Hc Hr].
  apply IH; [assumption |]. cbn [plain_argument]. rewrite Hc, Hacc. reflexivity.
Qed.

Lemma str_lstrip_plain (s : string) : plain_argument s = true -> Py.str_lstrip s = s.
Proof.
  destruct s as [| c r]; [reflexivity |]. cbn [plain_argument Py.str_lstrip].
  intros H. apply andb_true_iff in H. destruct H as [Hc _].
  apply andb_true_iff in Hc. destruct Hc as [_ Hc].
  destruct (Py.is_str_space c); [discriminate Hc | reflexivity].
Qed.

Lemma remove_control_chars_plain (s : string) :
  plain_argument s = true -> remove_control_chars s = s.
Proof.
  induction s as [| c r IH]; [reflexivity |]. cbn [plain_argument remove_control_chars].
  intros H. apply andb_true_iff in H. destruct H as [Hc Hr].
  apply andb_true_iff in Hc. destruct Hc as [Hc _].
  rewrite (IH Hr). destruct (is_control c); [discriminate Hc | reflexivity].
Qed.

(** The framework hands a plain argument to the handler as it was sent. *)
Lemma plain_argument_unchanged (s : string) :
  plain_argument s = true -> Py.str_strip (remove_control_chars s) = s.
Proof.
  intros H. rewrite (remove_control_chars_plain s H). unfold Py.str_strip.
  rewrite (str_lstrip_plain s H).
  rewrite str_lstrip_plain by (apply plain_argument_rev; [assumption | reflexivity]).
  apply rev_string_involutive.
Qed.

Lemma plain_argument_uint (d : Decimal.uint) :
  plain_argument (NilEmpty.string_of_uint d) = true.
Proof. induction d; cbn; try reflexivity; assumption. Qed.

Lemma plain_argument_str (n : Z) : plain_argument (Py.str n) = true.
Proof.
  unfold Py.str, NilZero.string_of_int, NilZero.string_of_uint.
  destruct (Z.to_int n) as [d | d].
  - destruct d; try reflexivity; apply (plain_argument_uint (_ d)).
  - change (plain_argument (String "-" ?r)) with (plain_argument r).
    destruct d; try reflexivity; apply (plain_argument_uint (_ d)).
Qed.

(** ** The console handler, further *)

(** X1: the values the console handler forwards in the redirect,
    [str(max_lines)] and, when there is one, [str(offset_line)], are
    read back as the same integers by the handler's own reading of
    its query; with no [offset_line] forwarded, none is read. *)
Theorem forwarded_console_query_reads_back
  (max_lines : Z) (offset_line : option Z) (req : Request) :
  query req = map (fun kv => (fst kv, Py.str (snd kv))) (console_query max_lines offset_line) ->
  console_arguments req max_lines offset_line.
Proof.
  intros Hq. unfold console_arguments, get_query_argument. rewrite Hq.
  assert (Hmax : last_argument
                   (map (fun kv => (fst kv, Py.str (snd kv)))
                      (console_query max_lines offset_line)) "max_lines"
                 = Some (Py.str max_lines))
    by (destruct offset_line; reflexivity).
  assert (Hoff : last_argument
                   (map (fun kv => (fst kv, Py.str (snd kv)))
                      (console_query max_lines offset_line)) "offset_line"
                 = option_map Py.str offset_line)
    by (destruct offset_line; reflexivity).
  rewrite Hmax, Hoff. cbn [option_map].
  rewrite plain_argument_unchanged by apply plain_argument_str.
  split; [apply int_str_round_trip |].
  destruct offset_line as [o |]; cbn [option_map]; [| reflexivity].
  rewrite plain_argument_unchanged by apply plain_argument_str.
  exists o. split; [apply int_str_round_trip | reflexivity].
Qed.

Lemma forwarded_console_query_reads_back_witness :
  console_arguments (Fake.request [("max_lines", "20"); ("offset_line", "300")] None)
    20 (Some 300).
Proof.
  exact (forwarded_console_query_reads_back 20 (Some 300)
           (Fake.request [("max_lines", "20"); ("offset_line", "300")] None) eq_refl).
Defined.

(** X2: the console handler falls back to the slave only on the store's
    not-found: when the store returns the output the handler writes it,
    and when the store raises anything else the handler raises it; either
    way the store is the one collaborator called and the build is never
    looked up. *)
Theorem console_fallback_only_on_not_found
  (C : Collaborators) (req : Request) (build_id subjob_id atom_id : string)
  (st : HState (World C)) (max_lines : Z) (offset_line : option Z)
  (r : exn + Json) (w1 : World C) :
  console_arguments req max_lines offset_line ->
  get_console_output C build_id subjob_id atom_id (results_directory C)
    max_lines offset_line (world st) = (r, w1) ->
  (forall msg, r <> inl (ItemNotFoundError msg)) ->
  _AtomConsoleHandler_get C req build_id subjob_id atom_id st
  = match r with
    | inr response =>
        (inr tt,
         mkHState w1 (calls st ++ [m_get_console_output]) (out st ++ [Write response]))
    | inl e => (inl e, mkHState w1 (calls st ++ [m_get_console_output]) (out st))
    end.
Proof.
  intros Hargs Hstore Hother.
  unfold _AtomConsoleHandler_get.
  rewrite (console_arguments_read C req st max_lines offset_line
             (fun ml off => try_except _ _) Hargs).
  unfold_handler_monad. rewrite Hstore.
  destruct r as [e | response]; [| reflexivity].
  destruct e; try reflexivity. exfalso. exact (Hother _ eq_refl).
Qed.

Lemma console_fallback_only_on_not_found_witness :
  _AtomConsoleHandler_get Fake.master (Fake.request [] None) "1" "0" "1"
    (mkHState world_with_output [] [])
  = (inr tt,
     mkHState world_with_output [m_get_console_output]
       [Write (JDict [("content", JStr "ok"); ("num_lines", JInt 1)])]).
Proof.
  refine (console_fallback_only_on_not_found Fake.master (Fake.request [] None) "1" "0" "1"
            (mkHState world_with_output [] []) 50 None (inr _) _
            (conj eq_refl eq_refl) eq_refl _).
  intros msg E. discriminate E.
Defined.

(** X3: in the fallback, a failure to find the build or the subjob
    replaces the store's not-found: the handler raises the lookup's
    exception, and has redirected nowhere. *)
Theorem console_fallback_lookup_failure
  (C : Collaborators) (req : Request) (build_id subjob_id atom_id : string)
  (st : HState (World C)) (max_lines : Z) (offset_line : option Z) (msg : string)
  (w1 : World C) (b : Z) :
  console_arguments req max_lines offset_line ->
  get_console_output C build_id subjob_id atom_id (results_directory C)
    max_lines offset_line (world st) = (inl (ItemNotFoundError msg), w1) ->
  Py.int build_id = Some b ->
  (forall e w2,
      get_build C b w1 = (inl e, w2) ->
      _AtomConsoleHandler_get C req build_id subjob_id atom_id st
      = (inl e, mkHState w2 (calls st ++ [m_get_console_output; m_get_build]) (out st)))
  /\ (forall build w2 sj e,
        get_build C b w1 = (inr build, w2) ->
        Py.int subjob_id = Some sj ->
        build_subjob C build sj = inl e ->
        _AtomConsoleHandler_get C req build_id subjob_id atom_id st
        = (inl e, mkHState w2 (calls st ++ [m_get_console_output; m_get_build]) (out st))).
Proof.
  intros Hargs Hstore Hb.
  split; [intros e w2 Hbuild | intros build w2 sj e Hbuild Hsj Hsubjob];
    unfold _AtomConsoleHandler_get;
    rewrite (console_arguments_read C req st max_lines offset_line
               (fun ml off => try_except _ _) Hargs);
    unfold_handler_monad; rewrite Hstore; cbn [world calls out];
    rewrite Hb; cbn [world calls out]; rewrite Hbuild;
    try rewrite Hsj, Hsubjob; rewrite <- app_assoc; reflexivity.
Qed.

Lemma console_fallback_lookup_failure_witness :
  _AtomConsoleHandler_get Fake.master (Fake.request [] None) "9" "0" "1" Fake.start
  = (inl (ItemNotFoundError "Invalid build id."),
     mkHState Fake.world0 [m_get_console_output; m_get_build] [])
  /\ _AtomConsoleHandler_get Fake.master (Fake.request [] None) "1" "5" "1" Fake.start
     = (inl (ItemNotFoundError "Invalid subjob id."),
        mkHState Fake.world0 [m_get_console_output; m_get_build] []).
Proof.
  split.
  - refine (proj1 (console_fallback_lookup_failure Fake.master (Fake.request [] None)
                     "9" "0" "1" Fake.start 50 None _ _ 9
                     (conj eq_refl eq_refl) eq_refl eq_refl) _ _ eq_refl).
  - refine (proj2 (console_fallback_lookup_failure Fake.master (Fake.request [] None)
                     "1" "5" "1" Fake.start 50 None _ _ 1
                     (conj eq_refl eq_refl) eq_refl eq_refl) _ _ 5 _ eq_refl eq_refl eq_refl).
Defined.

(** X4: an ASCII [max_lines] or [offset_line] that [int] refuses, as the
    framework hands it over (control characters replaced, stripped),
    makes the console handler raise [ValueError] before it calls any
    collaborator: its state is untouched. *)
Theorem console_rejects_non_integer_arguments
  (C : Collaborators) (req : Request) (build_id subjob_id atom_id : string)
  (st : HState (World C)) (v : string) :
  Py.is_ascii v = true ->
  (get_query_argument (query req) "max_lines" = Some v /\ Py.int v = None)
  \/ (match get_query_argument (query req) "max_lines" with
      | Some v' => Py.int v' <> None
      | None => True
      end
      /\ get_query_argument (query req) "offset_line" = Some v /\ Py.int v = None) ->
  _AtomConsoleHandler_get C req build_id subjob_id atom_id st = (inl ValueError, st).
Proof.
  intros _ [[Hmax Hbad] | (Hmax & Hoff & Hbad)]; unfold _AtomConsoleHandler_get.
  - rewrite Hmax. unfold bind at 1. unfold int_str at 1. rewrite Hbad. reflexivity.
  - rewrite Hoff.
    destruct (get_query_argument (query req) "max_lines") as [v' |];
      unfold bind at 1; unfold int_str at 1; unfold ret at 1.
    + destruct (Py.int v') as [n |]; [| contradiction].
      unfold bind at 1 2. unfold int_str at 1. rewrite Hbad. reflexivity.
    + unfold bind at 1 2. unfold int_str at 1. rewrite Hbad. reflexivity.
Qed.

Lemma console_rejects_non_integer_arguments_witness :
  _AtomConsoleHandler_get Fake.master (Fake.request [("max_lines", "ten")] None)
    "1" "0" "1" Fake.start
  = (inl ValueError, Fake.start)
  /\ _AtomConsoleHandler_get Fake.master
       (Fake.request [("max_lines", "10"); ("offset_line", "1.5")] None) "1" "0" "1" Fake.start
     = (inl ValueError, Fake.start).
Proof.
  split.
  - refine (console_rejects_non_integer_arguments Fake.master
              (Fake.request [("max_lines", "ten")] None) "1" "0" "1" Fake.start "ten"
              eq_refl (or_introl (conj eq_refl eq_refl))).
  - refine (console_rejects_non_integer_arguments Fake.master
              (Fake.request [("max_lines", "10"); ("offset_line", "1.5")] None)
              "1" "0" "1" Fake.start "1.5" eq_refl
              (or_intror (conj _ (conj eq_refl eq_refl)))).
    cbn. discriminate.
Defined.

(** ** Fetching one atom, further *)

(** X5: an atom id that came through the route's [(\d+)] is a
    non-negative integer, so [_AtomHandler.get] indexes the atom list
    from the front only: it writes the atom at that position, or raises
    [IndexError] when the position is past the end. *)
Theorem atom_of_routed_id
  (C : Collaborators) (req : Request) (build_id subjob_id atom_id : string)
  (st : HState (World C)) (b sj : Z) (w : World C) (build : Build C) (subjob : Subjob C)
  (atoms : list (Atom C)) :
  Py.int build_id = Some b ->
  get_build C b (world st) = (inr build, w) ->
  Py.int subjob_id = Some sj ->
  build_subjob C build sj = inr subjob ->
  subjob_atoms C subjob = AtomsList atoms ->
  all_digits atom_id = true ->
  atom_id <> "" ->
  exists a,
    Py.int atom_id = Some a /\ 0 <= a
    /\ _AtomHandler_get C req build_id subjob_id atom_id st
       = match nth_error atoms (Z.to_nat a) with
         | Some atom =>
             (inr tt,
              mkHState w (calls st ++ [m_get_build])
                (out st ++ [Write (JDict [("atom", atom_api_representation C atom)])]))
         | None => (inl IndexError, mkHState w (calls st ++ [m_get_build]) (out st))
         end.
Proof.
  intros Hb Hbuild Hsj Hsubjob Hatoms Hdigits Hne.
  destruct (int_of_digits atom_id Hdigits Hne) as (a & Ha & Hpos).
  exists a. split; [assumption |]. split; [assumption |].
  unfold _AtomHandler_get. unfold_handler_monad.
  rewrite Hb, Hbuild, Hsj, Hsubjob, Ha, Hatoms. cbn [index_atoms world calls out].
  unfold Py.list_index.
  destruct (a <? 0) eqn:Hneg; [lia |].
  destruct (0 <=? a) eqn:Hnn; [| lia]. cbn [andb].
  destruct (a <? Z.of_nat (length atoms)) eqn:Hlt.
  - destruct (nth_error atoms (Z.to_nat a)) eqn:Hnth; reflexivity.
  - assert (Hnone : nth_error atoms (Z.to_nat a) = None)
      by (apply nth_error_None; lia).
    rewrite Hnone. reflexivity.
Qed.

Lemma atom_of_routed_id_witness :
  exists a,
    Py.int "1" = Some a /\ 0 <= a
    /\ _AtomHandler_get Fake.master (Fake.request [] None) "1" "0" "1" Fake.start
       = match nth_error [0; 1] (Z.to_nat a) with
         | Some atom =>
             (inr tt,
              mkHState Fake.world0 [m_get_build]
                [Write (JDict [("atom", JDict [("id", JInt atom)])])])
         | None => (inl IndexError, mkHState Fake.world0 [m_get_build] [])
         end.
Proof.
  refine (atom_of_routed_id Fake.master (Fake.request [] None) "1" "0" "1" Fake.start
            1 0 _ _ _ [0; 1] eq_refl eq_refl eq_refl eq_refl eq_refl eq_refl _).
  discriminate.
Defined.

(** ** The subjob-result upload, further *)

(** X6: a [file] entry that is present but holds no file is treated as a
    missing one: the handler raises after the slave lookup, with the
    lookup's exception or its own [RuntimeError], and reports no result. *)
Theorem subjob_result_with_empty_file_list_raises
  (C : Collaborators) (req : Request) (build_id subjob_id : string)
  (st : HState (World C)) :
  assoc_get "file" (files req) = Some [] ->
  _SubjobResultHandler_post C req build_id subjob_id st
  = (inl match fst (get_slave_by_url C (dict_get (decoded_body req) "slave") (world st)) with
         | inl e => e
         | inr _ => RuntimeError "Result file not provided"
         end,
     mkHState (snd (get_slave_by_url C (dict_get (decoded_body req) "slave") (world st)))
       (calls st ++ [r_get_slave]) (out st)).
Proof.
  intros Hfile.
  unfold _SubjobResultHandler_post. rewrite Hfile. unfold_handler_monad.
  destruct (get_slave_by_url C (dict_get (decoded_body req) "slave") (world st))
    as [[e | slave] w]; reflexivity.
Qed.

Lemma subjob_result_with_empty_file_list_raises_witness :
  _SubjobResultHandler_post Fake.master
    {| query := []; decoded_body := [("slave", JStr "http://worker-7:8080")];
       files := [("file", [])]; credential := None; api_version := 1 |} "1" "0" Fake.start
  = (inl (RuntimeError "Result file not provided"),
     mkHState Fake.world0 [r_get_slave] []).
Proof.
  refine (subjob_result_with_empty_file_list_raises Fake.master
            {| query := []; decoded_body := [("slave", JStr "http://worker-7:8080")];
               files := [("file", [])]; credential := None; api_version := 1 |}
            "1" "0" Fake.start eq_refl).
Defined.

(** X7: with a known slave and a file, the upload handler records the
    analytics event first and hands the first file of the [file] entry
    to the master second; when recording the event raises, the master is
    never handed the result.  The handler answers with a status only
    after both. *)
Theorem subjob_result_is_reported_after_the_event
  (C : Collaborators) (req : Request) (build_id subjob_id : string)
  (st : HState (World C)) (slave : Slave C) (w1 : World C)
  (file0 : HTTPFile) (others : list HTTPFile) (executor_id : Json) (b sj : Z) :
  get_slave_by_url C (dict_get (decoded_body req) "slave") (world st) = (inr slave, w1) ->
  assoc_get "file" (files req) = Some (file0 :: others) ->
  json_get (dict_get_or_empty (decoded_body req) "metric_data") "executor_id"
  = inr executor_id ->
  Py.int build_id = Some b ->
  Py.int subjob_id = Some sj ->
  (forall e w2,
      record_event C executor_id b sj slave w1 = (inl e, w2) ->
      _SubjobResultHandler_post C req build_id subjob_id st
      = (inl e, mkHState w2 (calls st ++ [r_get_slave; a_record_event]) (out st)))
  /\ (forall w2 r w3,
        record_event C executor_id b sj slave w1 = (inr tt, w2) ->
        handle_result_reported_from_slave C (dict_get (decoded_body req) "slave")
          b sj file0 w2 = (r, w3) ->
        _SubjobResultHandler_post C req build_id subjob_id st
        = match r with
          | inr _ =>
              (inr tt,
               mkHState w3
                 (calls st ++ [r_get_slave; a_record_event; m_handle_result_reported_from_slave])
                 (out st ++ [WriteStatus None None None]))
          | inl e =>
              (inl e,
               mkHState w3
                 (calls st ++ [r_get_slave; a_record_event; m_handle_result_reported_from_slave])
                 (out st))
          end).
Proof.
  intros Hslave Hfile Hexec Hb Hsj.
  split; [intros e w2 Hevent | intros w2 r w3 Hevent Hreport];
    unfold _SubjobResultHandler_post; unfold_handler_monad;
    rewrite Hslave, Hfile, Hexec, Hb, Hsj; cbn [world calls out]; rewrite Hevent;
    cbn [world calls out].
  - rewrite <- app_assoc. reflexivity.
  - rewrite Hreport. destruct r as [e | []]; cbn [world calls out];
      rewrite <- !app_assoc; reflexivity.
Qed.

Lemma subjob_result_is_reported_after_the_event_witness :
  _SubjobResultHandler_post Fake.master
    {| query := []; decoded_body := [("slave", JStr "http://worker-7:8080")];
       files := [("file", [{| filename := "r1.tar.gz"; body := "a" |};
                           {| filename := "r2.tar.gz"; body := "b" |}])];
       credential := None; api_version := 1 |} "1" "0" Fake.start
  = (inr tt,
     mkHState Fake.world0 [r_get_slave; a_record_event; m_handle_result_reported_from_slave]
       [WriteStatus None None None]).
Proof.
  refine (proj2 (subjob_result_is_reported_after_the_event Fake.master
                   {| query := []; decoded_body := [("slave", JStr "http://worker-7:8080")];
                      files := [("file", [{| filename := "r1.tar.gz"; body := "a" |};
                                          {| filename := "r2.tar.gz"; body := "b" |}])];
                      credential := None; api_version := 1 |}
                   "1" "0" Fake.start Fake.worker7 Fake.world0 _ _ JNull 1 0
                   eq_refl eq_refl eq_refl eq_refl eq_refl)
                Fake.world0 (inr tt) Fake.world0 eq_refl eq_refl).
Defined.

(** ** Shutting slaves down, further *)

(** X8: with a true [shutdown_all], the shutdown of several slaves asks
    the registry for all slaves and puts exactly their ids, in the
    registry's order, in shutdown mode; the [slaves] entry of the body
    is not read. *)
Theorem shutdown_all_takes_every_registered_slave
  (C : Collaborators) (req : Request) (st : HState (World C))
  (slaves : list (Z * Slave C)) (w1 : World C) :
  is_authenticated C req = true ->
  truthy (dict_get (decoded_body req) "shutdown_all") = true ->
  get_all_slaves_by_id C (world st) = (inr slaves, w1) ->
  _SlavesShutdownHandler_post C req st
  = (fst (set_shutdown_mode_on_slaves C (map fst slaves) w1),
     mkHState (snd (set_shutdown_mode_on_slaves C (map fst slaves) w1))
       (calls st ++ [r_get_all_slaves_by_id; m_set_shutdown_mode_on_slaves]) (out st)).
Proof.
  intros Hauth Hall Hslaves.
  unfold _SlavesShutdownHandler_post, authenticated. rewrite Hauth, Hall.
  unfold_handler_monad. rewrite Hslaves. cbn [world calls out].
  destruct (set_shutdown_mode_on_slaves C (map fst slaves) w1) as [[e | []] w2];
    cbn [fst snd]; rewrite <- app_assoc; reflexivity.
Qed.

Lemma shutdown_all_takes_every_registered_slave_witness :
  _SlavesShutdownHandler_post Fake.master
    {| query := []; decoded_body := [("shutdown_all", JBool true); ("slaves", JList [JInt 99])];
       files := []; credential := Some "secret"; api_version := 1 |} Fake.start
  = (inr tt,
     mkHState Fake.world0 [r_get_all_slaves_by_id; m_set_shutdown_mode_on_slaves] []).
Proof.
  refine (shutdown_all_takes_every_registered_slave Fake.master
            {| query := [];
               decoded_body := [("shutdown_all", JBool true); ("slaves", JList [JInt 99])];
               files := []; credential := Some "secret"; api_version := 1 |}
            Fake.start _ _ eq_refl eq_refl eq_refl).
Defined.

(** X9: without a true [shutdown_all], the shutdown of several slaves
    needs the [slaves] entry of the body: when it is missing (or [null],
    a number or a boolean) the handler raises [TypeError] and calls no
    collaborator; when it is a list, the handler converts every item
    with [int] before it calls the master, so one item that [int]
    refuses (among items whose strings are ASCII) stops the request with
    nothing put in shutdown mode, and otherwise the master gets the
    converted ids, a float truncated towards zero. *)
Theorem shutdown_of_listed_slaves
  (C : Collaborators) (req : Request) (st : HState (World C)) :
  is_authenticated C req = true ->
  truthy (dict_get (decoded_body req) "shutdown_all") = false ->
  (json_iter (dict_get (decoded_body req) "slaves") = inl TypeError ->
   _SlavesShutdownHandler_post C req st = (inl TypeError, st))
  /\ (forall items e,
        dict_get (decoded_body req) "slaves" = JList items ->
        forallb json_ascii items = true ->
        map_exn json_int items = inl e ->
        _SlavesShutdownHandler_post C req st = (inl e, st))
  /\ (forall items ids,
        dict_get (decoded_body req) "slaves" = JList items ->
        map_exn json_int items = inr ids ->
        _SlavesShutdownHandler_post C req st
        = (fst (set_shutdown_mode_on_slaves C ids (world st)),
           mkHState (snd (set_shutdown_mode_on_slaves C ids (world st)))
             (calls st ++ [m_set_shutdown_mode_on_slaves]) (out st))).
Proof.
  intros Hauth Hall.
  repeat split; intros;
    unfold _SlavesShutdownHandler_post, authenticated; rewrite Hauth, Hall;
    unfold_handler_monad.
  - rewrite H. reflexivity.
  - rewrite H. cbn [json_iter]. rewrite H1. reflexivity.
  - rewrite H. cbn [json_iter]. rewrite H0.
    destruct (set_shutdown_mode_on_slaves C ids (world st)) as [[e | []] w2]; reflexivity.
Qed.

Lemma shutdown_of_listed_slaves_witness :
  _SlavesShutdownHandler_post Fake.master (Fake.request [] (Some "secret")) Fake.start
  = (inl TypeError, Fake.start)
  /\ _SlavesShutdownHandler_post Fake.master
       {| query := []; decoded_body := [("slaves", JList [JInt 7; JStr "seven"])];
          files := []; credential := Some "secret"; api_version := 1 |} Fake.start
     = (inl ValueError, Fake.start)
  /\ _SlavesShutdownHandler_post Fake.master
       {| query := [];
          decoded_body := [("slaves", JList [JInt 7; JStr "3"; JFloat (Py.finite (9 # 2))])];
          files := []; credential := Some "secret"; api_version := 1 |} Fake.start
     = (inr tt, mkHState Fake.world0 [m_set_shutdown_mode_on_slaves] []).
Proof.
  split; [| split].
  - refine (proj1 (shutdown_of_listed_slaves Fake.master (Fake.request [] (Some "secret"))
                     Fake.start eq_refl eq_refl) eq_refl).
  - refine (proj1 (proj2 (shutdown_of_listed_slaves Fake.master
                     {| query := []; decoded_body := [("slaves", JList [JInt 7; JStr "seven"])];
                        files := []; credential := Some "secret"; api_version := 1 |}
                     Fake.start eq_refl eq_refl)) _ _ eq_refl eq_refl eq_refl).
  - refine (proj2 (proj2 (shutdown_of_listed_slaves Fake.master
                     {| query := [];
                        decoded_body :=
                          [("slaves", JList [JInt 7; JStr "3"; JFloat (Py.finite (9 # 2))])];
                        files := []; credential := Some "secret"; api_version := 1 |}
                     Fake.start eq_refl eq_refl)) _ _ eq_refl eq_refl).
Defined.

(** ** Updating a slave's state, further *)

(** X10: the slave update reads the new state from the body before it
    looks the slave up, so a [slave] entry that is no dict stops the
    request with no collaborator called; it refreshes the heartbeat only
    after the state update, so a refused state update leaves the
    heartbeat as it was; and it answers with the slave's representation
    only after both. *)
Theorem slave_state_update_precedes_heartbeat
  (C : Collaborators) (req : Request) (slave_id : string) (st : HState (World C)) :
  is_authenticated C req = true ->
  (forall e,
      json_get (dict_get_or_empty (decoded_body req) "slave") "state" = inl e ->
      _SlaveHandler_put C req slave_id st = (inl e, st))
  /\ (forall state sid slave w1 e w2,
        json_get (dict_get_or_empty (decoded_body req) "slave") "state" = inr state ->
        Py.int slave_id = Some sid ->
        get_slave_by_id C sid (world st) = (inr slave, w1) ->
        handle_slave_state_update C slave state w1 = (inl e, w2) ->
        _SlaveHandler_put C req slave_id st
        = (inl e,
           mkHState w2 (calls st ++ [r_get_slave; m_handle_slave_state_update]) (out st)))
  /\ (forall state sid slave w1 w2 w3,
        json_get (dict_get_or_empty (decoded_body req) "slave") "state" = inr state ->
        Py.int slave_id = Some sid ->
        get_slave_by_id C sid (world st) = (inr slave, w1) ->
        handle_slave_state_update C slave state w1 = (inr tt, w2) ->
        update_slave_last_heartbeat_time C slave w2 = (inr tt, w3) ->
        _SlaveHandler_put C req slave_id st
        = (inr tt,
           mkHState w3
             (calls st ++ [r_get_slave; m_handle_slave_state_update;
                           m_update_slave_last_heartbeat_time])
             (out st ++
              [WriteStatus (Some (JDict [("slave", slave_api_representation C slave)]))
                 None None]))).
Proof.
  intros Hauth.
  split; [| split]; intros;
    unfold _SlaveHandler_put, authenticated; rewrite Hauth; unfold_handler_monad.
  - rewrite H. reflexivity.
  - rewrite H, H0, H1. cbn [world calls out]. rewrite H2. cbn [world calls out].
    rewrite <- app_assoc. reflexivity.
  - rewrite H, H0, H1. cbn [world calls out]. rewrite H2. cbn [world calls out].
    rewrite H3. cbn [world calls out]. rewrite <- !app_assoc. reflexivity.
Qed.

Lemma slave_state_update_precedes_heartbeat_witness :
  _SlaveHandler_put Fake.master
    {| query := []; decoded_body := [("slave", JStr "idle")]; files := [];
       credential := Some "secret"; api_version := 1 |} "7" Fake.start
  = (inl AttributeError, Fake.start)
  /\ _SlaveHandler_put Fake.master
       {| query := []; decoded_body := [("slave", JDict [("state", JStr "idle")])];
          files := []; credential := Some "secret"; api_version := 1 |} "7" Fake.start
     = (inr tt,
        mkHState Fake.world0
          [r_get_slave; m_handle_slave_state_update; m_update_slave_last_heartbeat_time]
          [WriteStatus
             (Some (JDict [("slave", JDict [("id", JInt 7);
                                            ("url", JStr "http://worker-7:8080")])]))
             None None]).
Proof.
  split.
  - refine (proj1 (slave_state_update_precedes_heartbeat Fake.master
                     {| query := []; decoded_body := [("slave", JStr "idle")]; files := [];
                        credential := Some "secret"; api_version := 1 |}
                     "7" Fake.start eq_refl) _ eq_refl).
  - refine (proj2 (proj2 (slave_state_update_precedes_heartbeat Fake.master
                     {| query := [];
                        decoded_body := [("slave", JDict [("state", JStr "idle")])];
                        files := []; credential := Some "secret"; api_version := 1 |}
                     "7" Fake.start eq_refl))
                  _ 7 _ _ _ _ eq_refl eq_refl eq_refl eq_refl eq_refl).
Defined.

(** ** Downloading an artifact *)

Lemma split_last_slash_tail (s : string) :
  match Py.split_last_slash s with
  | Some (_, t) => no_slash t = true
  | None => no_slash s = true
  end.
Proof.
  induction s as [| c r IH]; [reflexivity |]. cbn [Py.split_last_slash].
  destruct (Py.split_last_slash r) as [[h t] |]; [assumption |].
  cbn [no_slash]. destruct (Ascii.eqb c "/"); [assumption |].
  cbn [negb andb]. assumption.
Qed.

(** The file name [os.path.split] gives holds no path separator. *)
Lemma path_split_name (p : string) : no_slash (snd (Py.path_split p)) = true.
Proof.
  unfold Py.path_split. pose proof (split_last_slash_tail p) as H.
  destruct (Py.split_last_slash p) as [[h t] |]; cbn [snd]; assumption.
Qed.

(** X11: the artifact download asks the master for the archive path,
    with [is_tar_request] true for the tar handler and left out for the
    zip handler, sets the binary content type and then has the static
    file handler serve the file by its name under the archive's
    directory; the name is the last component of the path and holds no
    path separator.  When the static file handler raises (a missing
    file), the exception leaves the handler with the header already
    set and no file served.  An ASCII build id that [int] refuses stops
    the request before the master is asked. *)
Theorem artifact_is_served_by_name
  (C : Collaborators) (is_tar_request : option bool) (req : Request) (build_id : string)
  (st : HState (World C)) :
  (Py.is_ascii build_id = true ->
   Py.int build_id = None ->
   _BuildResultHandler_get C is_tar_request req build_id st = (inl ValueError, st))
  /\ (forall b path w,
        Py.int build_id = Some b ->
        get_path_for_build_results_archive C b is_tar_request (world st) = (inr path, w) ->
        _BuildResultHandler_get C is_tar_request req build_id st
        = match StaticFileHandler_get C (fst (Py.path_split path))
                  (snd (Py.path_split path)) w with
          | (inr _, w') =>
              (inr tt,
               mkHState w' (calls st ++ [m_get_path_for_build_results_archive])
                 (out st ++
                  [SetHeader "Content-Type" "application/octet-stream";
                   ServeStaticFile (fst (Py.path_split path)) (snd (Py.path_split path))]))
          | (inl e, w') =>
              (inl e,
               mkHState w' (calls st ++ [m_get_path_for_build_results_archive])
                 (out st ++ [SetHeader "Content-Type" "application/octet-stream"]))
          end
        /\ no_slash (snd (Py.path_split path)) = true)
  /\ _BuildTarResultHandler_get C req build_id st
     = _BuildResultHandler_get C (Some true) req build_id st
  /\ _BuildZipResultHandler_get C req build_id st
     = _BuildResultHandler_get C None req build_id st.
Proof.
  split; [| split; [| split; reflexivity]].
  - intros _ Hb. unfold _BuildResultHandler_get. unfold_handler_monad. rewrite Hb.
    reflexivity.
  - intros b path w Hb Hpath. split; [| apply path_split_name].
    unfold _BuildResultHandler_get. unfold_handler_monad. rewrite Hb, Hpath.
    destruct (Py.path_split path) as [root name]. cbn [fst snd world calls out].
    unfold emit_after. cbn [world calls out].
    destruct (StaticFileHandler_get C root name w) as [[e | []] w'];
      [reflexivity | rewrite <- app_assoc; reflexivity].
Qed.

Lemma artifact_is_served_by_name_witness :
  _BuildTarResultHandler_get Fake.master (Fake.request [] None) "3" Fake.start
  = (inr tt,
     mkHState Fake.world0 [m_get_path_for_build_results_archive]
       [SetHeader "Content-Type" "application/octet-stream";
        ServeStaticFile "/results/3" "results.tar.gz"])
  /\ _BuildZipResultHandler_get Fake.master (Fake.request [] None) "9" Fake.start
     = (inl (HTTPError 404),
        mkHState Fake.world0 [m_get_path_for_build_results_archive]
          [SetHeader "Content-Type" "application/octet-stream"]).
Proof.
  split.
  - refine (proj1 (proj1 (proj2 (artifact_is_served_by_name Fake.master (Some true)
                     (Fake.request [] None) "3" Fake.start)) 3 _ _ eq_refl eq_refl)).
  - refine (proj1 (proj1 (proj2 (artifact_is_served_by_name Fake.master None
                     (Fake.request [] None) "9" Fake.start)) 9 _ _ eq_refl eq_refl)).
Defined.

(** ** Connecting a slave *)

(** X12: connecting a slave asks for no credential and needs
    [num_executors] in the body: when the entry is missing the handler
    raises [TypeError] and the master is not called; when the master
    connects the slave the answer is its response with status 201. *)
Theorem connect_slave_needs_num_executors
  (C : Collaborators) (req : Request) (st : HState (World C)) :
  (assoc_get "num_executors" (decoded_body req) = None ->
   _SlavesHandler_post C req st = (inl TypeError, st))
  /\ (forall n response w,
        json_int (dict_get (decoded_body req) "num_executors") = inr n ->
        connect_slave C (dict_get (decoded_body req) "slave") n
          (dict_get (decoded_body req) "session_id") (world st) = (inr response, w) ->
        _SlavesHandler_post C req st
        = (inr tt,
           mkHState w (calls st ++ [m_connect_slave])
             (out st ++ [WriteStatus (Some response) None (Some 201)]))).
Proof.
  split.
  - intros Hmissing. unfold _SlavesHandler_post, dict_get. rewrite Hmissing.
    reflexivity.
  - intros n response w Hn Hconnect. unfold _SlavesHandler_post. unfold_handler_monad.
    rewrite Hn, Hconnect. reflexivity.
Qed.

Lemma connect_slave_needs_num_executors_witness :
  _SlavesHandler_post Fake.master
    {| query := []; decoded_body := [("slave", JStr "http://worker-8:8080")]; files := [];
       credential := None; api_version := 1 |} Fake.start
  = (inl TypeError, Fake.start)
  /\ _SlavesHandler_post Fake.master
       {| query := [];
          decoded_body := [("slave", JStr "http://worker-8:8080"); ("num_executors", JStr "4")];
          files := []; credential := None; api_version := 1 |} Fake.start
     = (inr tt,
        mkHState Fake.world0 [m_connect_slave]
          [WriteStatus (Some (JDict [("slave_id", JInt 1)])) None (Some 201)]).
Proof.
  split.
  - refine (proj1 (connect_slave_needs_num_executors Fake.master
                     {| query := []; decoded_body := [("slave", JStr "http://worker-8:8080")];
                        files := []; credential := None; api_version := 1 |}
                     Fake.start) eq_refl).
  - refine (proj2 (connect_slave_needs_num_executors Fake.master
                     {| query := [];
                        decoded_body := [("slave", JStr "http://worker-8:8080");
                                         ("num_executors", JStr "4")];
                        files := []; credential := None; api_version := 1 |}
                     Fake.start) 4 _ _ eq_refl eq_refl).
Defined.

(** ** What holds of every handler *)

Section HandlerLogic.

Context {W : Type}.

Variable allowed : Method -> bool.

Lemma calls_only_ret {A : Type} (a : A) : calls_only allowed (@ret W A a).
Proof. intros s. exists []. split; [symmetry; apply app_nil_r | reflexivity]. Qed.

Lemma calls_only_raise {A : Type} (e : exn) : calls_only allowed (@raise W A e).
Proof. intros s. exists []. split; [symmetry; apply app_nil_r | reflexivity]. Qed.

Lemma calls_only_lift {A : Type} (r : exn + A) : calls_only allowed (@lift W A r).
Proof. intros s. exists []. split; [symmetry; apply app_nil_r | reflexivity]. Qed.

Lemma calls_only_emit (o : Output) : calls_only allowed (@emit W o).
Proof. intros s. exists []. split; [symmetry; apply app_nil_r | reflexivity]. Qed.

Lemma calls_only_emit_after (f : W -> (exn + unit) * W) (o : Output) :
  calls_only allowed (emit_after f o).
Proof.
  intros s. exists []. unfold emit_after.
  destruct (f (world s)) as [[e | u] w];
    (split; [symmetry; apply app_nil_r | reflexivity]).
Qed.

Lemma calls_only_int_str (s : string) : calls_only allowed (@int_str W s).
Proof.
  unfold int_str. destruct (Py.int s); [apply calls_only_ret | apply calls_only_raise].
Qed.

Lemma calls_only_call {A : Type} (m : Method) (f : W -> (exn + A) * W) :
  allowed m = true -> calls_only allowed (call m f).
Proof.
  intros Hm s. exists [m]. unfold call. destruct (f (world s)) as [r w].
  split; [reflexivity |]. cbn [forallb]. rewrite Hm. reflexivity.
Qed.

Lemma calls_only_bind {A B : Type} (m : M W A) (k : A -> M W B) :
  calls_only allowed m -> (forall a, calls_only allowed (k a)) ->
  calls_only allowed (bind m k).
Proof.
  intros Hm Hk s. unfold bind. destruct (Hm s) as (made & Hcalls & Hok).
  destruct (m s) as [[e | a] s1]; cbn [snd] in *.
  - exists made. split; assumption.
  - destruct (Hk a s1) as (made' & Hcalls' & Hok').
    exists (made ++ made')%list. rewrite Hcalls', Hcalls, forallb_app, Hok, Hok'.
    split; [symmetry; apply app_assoc | reflexivity].
Qed.

Lemma calls_only_try {A : Type} (body : M W A) (handler : exn -> option (M W A)) :
  calls_only allowed body ->
  (forall e, match handler e with Some h => calls_only allowed h | None => True end) ->
  calls_only allowed (try_except body handler).
Proof.
  intros Hbody Hhandler s. unfold try_except. destruct (Hbody s) as (made & Hcalls & Hok).
  destruct (body s) as [[e | a] s1]; cbn [snd] in *.
  - specialize (Hhandler e). destruct (handler e) as [h |].
    + destruct (Hhandler s1) as (made' & Hcalls' & Hok').
      exists (made ++ made')%list. rewrite Hcalls', Hcalls, forallb_app, Hok, Hok'.
      split; [symmetry; apply app_assoc | reflexivity].
    + exists made. split; assumption.
  - exists made. split; assumption.
Qed.

Lemma silent_ret {A : Type} (a : A) : silent (@ret W A a).
Proof. intros s. reflexivity. Qed.

Lemma silent_raise {A : Type} (e : exn) : silent (@raise W A e).
Proof. intros s. reflexivity. Qed.

Lemma silent_lift {A : Type} (r : exn + A) : silent (@lift W A r).
Proof. intros s. reflexivity. Qed.

Lemma silent_int_str (s : string) : silent (@int_str W s).
Proof. unfold int_str. destruct (Py.int s); [apply silent_ret | apply silent_raise]. Qed.

Lemma silent_call {A : Type} (m : Method) (f : W -> (exn + A) * W) : silent (call m f).
Proof. intros s. unfold call. destruct (f (world s)). reflexivity. Qed.

Lemma silent_bind {A B : Type} (m : M W A) (k : A -> M W B) :
  silent m -> (forall a, silent (k a)) -> silent (bind m k).
Proof.
  intros Hm Hk s. unfold bind. specialize (Hm s).
  destruct (m s) as [[e | a] s1]; cbn [snd] in *; [assumption |].
  rewrite (Hk a s1). assumption.
Qed.

Lemma writes_only_on_success_silent {A : Type} (m : M W A) :
  silent m -> writes_only_on_success m.
Proof. intros Hm s e s' E. specialize (Hm s). rewrite E in Hm. exact Hm. Qed.

Lemma writes_only_on_success_emit (o : Output) : writes_only_on_success (@emit W o).
Proof. intros s e s' E. discriminate E. Qed.

Lemma writes_only_on_success_bind {A B : Type} (m : M W A) (k : A -> M W B) :
  silent m -> (forall a, writes_only_on_success (k a)) ->
  writes_only_on_success (bind m k).
Proof.
  intros Hm Hk s e s' E. unfold bind in E. specialize (Hm s).
  destruct (m s) as [[e1 | a] s1]; cbn [snd] in *.
  - injection E as _ <-. assumption.
  - rewrite (Hk a s1 e s' E). assumption.
Qed.

Lemma writes_only_on_success_try {A : Type} (body : M W A) (handler : exn -> option (M W A)) :
  writes_only_on_success body ->
  (forall e, match handler e with
             | Some h => writes_only_on_success h
             | None => True
             end) ->
  writes_only_on_success (try_except body handler).
Proof.
  intros Hbody Hhandler s e s' E. unfold try_except in E.
  specialize (Hbody s). destruct (body s) as [[e1 | a] s1]; [| discriminate E].
  specialize (Hbody e1 s1 eq_refl). specialize (Hhandler e1).
  destruct (handler e1) as [h |].
  - rewrite (Hhandler s1 e s' E). assumption.
  - injection E as _ <-. assumption.
Qed.

End HandlerLogic.

Ltac unfold_handlers :=
  unfold _APIVersionOneHandler_get, _VersionHandler_get, _MetricsHandler_get,
    _QueueHandler_get, _SubjobsHandler_get, _V2SubjobsHandler_get, _SubjobHandler_get,
    _SubjobResultHandler_post, _SubjobResultHandler_get, _AtomsHandler_get,
    _V2AtomsHandler_get, _AtomHandler_get, _AtomConsoleHandler_get, _BuildsHandler_post,
    _BuildsHandler_get, _V2BuildsHandler_get, _BuildHandler_put, _BuildHandler_get,
    _BuildResultRedirectHandler_get, _BuildTarResultHandler_get, _BuildZipResultHandler_get,
    _BuildResultHandler_get, _SlavesHandler_post, _SlavesHandler_get, _SlaveHandler_get,
    _SlaveHandler_put, _EventlogHandler_get, _SlaveShutdownHandler_post,
    _SlavesShutdownHandler_post, _SlavesHeartbeatHandler_post, get_pagination_params,
    authenticated.

Ltac destruct_scrutinee t :=
  lazymatch t with
  | match ?x with _ => _ end => destruct_scrutinee x
  | _ => destruct t
  end.

Ltac calls_only_step :=
  lazymatch goal with
  | |- True => exact I
  | |- calls_only _ (bind _ _) => apply calls_only_bind; [| intros ?]
  | |- calls_only _ (ret _) => apply calls_only_ret
  | |- calls_only _ (raise _) => apply calls_only_raise
  | |- calls_only _ (lift _) => apply calls_only_lift
  | |- calls_only _ (emit _) => apply calls_only_emit
  | |- calls_only _ (emit_after _ _) => apply calls_only_emit_after
  | |- calls_only _ (int_str _) => apply calls_only_int_str
  | |- calls_only _ (call _ _) => apply calls_only_call; reflexivity
  | |- calls_only _ (try_except _ _) => apply calls_only_try; [| intros ?; cbv beta]
  | |- calls_only _ (match ?x with _ => _ end) => destruct_scrutinee x; cbv beta iota
  | |- match ?x with _ => _ end => destruct_scrutinee x; cbv beta iota
  end.

Ltac silent_step :=
  lazymatch goal with
  | |- silent (bind _ _) => apply silent_bind; [| intros ?]
  | |- silent (ret _) => apply silent_ret
  | |- silent (raise _) => apply silent_raise
  | |- silent (lift _) => apply silent_lift
  | |- silent (int_str _) => apply silent_int_str
  | |- silent (call _ _) => apply silent_call
  | |- silent (match ?x with _ => _ end) => destruct_scrutinee x; cbv beta iota
  end.

Ltac writes_step :=
  lazymatch goal with
  | |- True => exact I
  | |- writes_only_on_success (bind _ _) =>
      apply writes_only_on_success_bind; [repeat silent_step | intros ?]
  | |- writes_only_on_success (emit _) => apply writes_only_on_success_emit
  | |- writes_only_on_success (try_except _ _) =>
      apply writes_only_on_success_try; [| intros ?; cbv beta]
  | |- writes_only_on_success (match ?x with _ => _ end) =>
      destruct_scrutinee x; cbv beta iota
  | |- match ?x with _ => _ end => destruct_scrutinee x; cbv beta iota
  | |- writes_only_on_success _ =>
      apply writes_only_on_success_silent; repeat silent_step
  end.

(** X13: a GET never reaches a collaborator method that changes
    anything.  Whatever the handler class, the path captures and the
    request, the calls a GET adds to the log are lookups and listings of
    the master and the registry, the event log and the metrics text. *)
Theorem get_calls_only_readers
  (C : Collaborators) (h : HandlerType) (args : list string) (req : Request)
  (st : HState (World C)) :
  exists made,
    calls (snd (handle C h GET args req st)) = (calls st ++ made)%list
    /\ forallb read_only made = true.
Proof.
  revert st. change (calls_only read_only (handle C h GET args req)).
  destruct h; cbn [handle]; unfold args0, args1, args2, args3;
    repeat (destruct args as [| ? args]; try apply calls_only_raise);
    unfold_handlers; repeat calls_only_step.
Qed.

(** What the artifact download has written when it raises: nothing, or
    the content type it sets before the static file handler runs. *)
Lemma artifact_download_that_raises
  (C : Collaborators) (is_tar_request : option bool) (req : Request) (build_id : string)
  (st st' : HState (World C)) (e : exn) :
  _BuildResultHandler_get C is_tar_request req build_id st = (inl e, st') ->
  out st' = out st
  \/ out st' = (out st ++ [SetHeader "Content-Type" "application/octet-stream"])%list.
Proof.
  unfold _BuildResultHandler_get. unfold_handler_monad.
  destruct (Py.int build_id) as [b |];
    [| intros H; injection H as _ <-; left; reflexivity].
  destruct (get_path_for_build_results_archive C b is_tar_request (world st))
    as [[e1 | path] w]; [intros H; injection H as _ <-; left; reflexivity |].
  destruct (Py.path_split path) as [root name]. unfold emit_after. cbn [world calls out].
  destruct (StaticFileHandler_get C root name w) as [[e2 | u] w'];
    intros H; [injection H as _ <-; right; reflexivity | discriminate H].
Qed.

(** Every handler method but the two artifact downloads performs its
    response action last. *)
Lemma other_handlers_write_only_on_success
  (C : Collaborators) (h : HandlerType) (m : HttpMethod) (args : list string)
  (req : Request) :
  serves_file h m = false -> writes_only_on_success (handle C h m args req).
Proof.
  intros Hserves.
  destruct h, m; try discriminate Hserves; cbn [handle];
    unfold args0, args1, args2, args3;
    repeat (destruct args as [| ? args];
            try (apply writes_only_on_success_silent; apply silent_raise));
    unfold_handlers; repeat writes_step.
Qed.

(** X14: a handler that raises has sent no body.  Whatever the handler
    class, the HTTP method, the path captures and the request, when the
    handler method ends in an exception it has performed no response
    action, with one exception: the two artifact downloads may have set
    their content type header, which they do before the static file
    handler runs and can raise. *)
Theorem handler_that_raises_has_sent_no_body
  (C : Collaborators) (h : HandlerType) (m : HttpMethod) (args : list string)
  (req : Request) (st st' : HState (World C)) (e : exn) :
  handle C h m args req st = (inl e, st') ->
  out st' = out st
  \/ ((h = _BuildTarResultHandler \/ h = _BuildZipResultHandler) /\ m = GET
      /\ out st'
         = (out st ++ [SetHeader "Content-Type" "application/octet-stream"])%list).
Proof.
  intros H. destruct (serves_file h m) eqn:Hserves.
  - destruct h, m; try discriminate Hserves; cbn [handle] in H; unfold args1 in H;
      (destruct args as [| a [| a' rest]];
       [injection H as _ <-; left; reflexivity
       | | injection H as _ <-; left; reflexivity]);
      (destruct (artifact_download_that_raises C _ req a st st' e H) as [Hout | Hout];
       [left; assumption | right; split; [| split; [reflexivity | assumption]]]);
      [left | right]; reflexivity.
  - left. exact (other_handlers_write_only_on_success C h m args req Hserves st e st' H).
Qed.

Lemma handler_that_raises_has_sent_no_body_witness :
  (out (mkHState Fake.world0 [m_set_shutdown_mode_on_slaves] []) = out Fake.start
   \/ ((_SlaveShutdownHandler = _BuildTarResultHandler
        \/ _SlaveShutdownHandler = _BuildZipResultHandler) /\ POST = GET
       /\ out (mkHState Fake.world0 [m_set_shutdown_mode_on_slaves] [])
          = (out Fake.start ++ [SetHeader "Content-Type" "application/octet-stream"])%list))
  /\ (out (mkHState Fake.world0 [m_get_path_for_build_results_archive]
             [SetHeader "Content-Type" "application/octet-stream"]) = out Fake.start
      \/ ((_BuildZipResultHandler = _BuildTarResultHandler
           \/ _BuildZipResultHandler = _BuildZipResultHandler) /\ GET = GET
          /\ out (mkHState Fake.world0 [m_get_path_for_build_results_archive]
                    [SetHeader "Content-Type" "application/octet-stream"])
             = (out Fake.start
                ++ [SetHeader "Content-Type" "application/octet-stream"])%list)).
Proof.
  split.
  - exact (handler_that_raises_has_sent_no_body Fake.master _SlaveShutdownHandler POST ["99"]
             (Fake.request [] (Some "secret")) Fake.start _ _ eq_refl).
  - exact (handler_that_raises_has_sent_no_body Fake.master _BuildZipResultHandler GET ["9"]
             (Fake.request [] None) Fake.start _ _ eq_refl).
Defined.

(** X15: without a valid credential no handler reaches build creation,
    build update, the slave state update, the heartbeat refresh or the
    shutdown mode, whatever the handler class, the HTTP method and the
    path captures.  (Connecting a slave and uploading a subjob result are
    not behind the credential.) *)
Theorem unauthenticated_request_reaches_no_guarded_method
  (C : Collaborators) (h : HandlerType) (m : HttpMethod) (args : list string)
  (req : Request) (st : HState (World C)) :
  is_authenticated C req = false ->
  exists made,
    calls (snd (handle C h m args req st)) = (calls st ++ made)%list
    /\ forallb (fun c => negb (behind_authentication c)) made = true.
Proof.
  intros Hauth. revert st.
  change (calls_only (fun c => negb (behind_authentication c)) (handle C h m args req)).
  destruct h, m; cbn [handle]; unfold args0, args1, args2, args3;
    repeat (destruct args as [| ? args]; try apply calls_only_raise);
    unfold_handlers; try rewrite Hauth; repeat calls_only_step.
Qed.

Lemma unauthenticated_request_reaches_no_guarded_method_witness :
  exists made,
    calls (snd (handle Fake.master _SlavesHeartbeatHandler POST ["7"]
                  (Fake.request [] None) Fake.start))
    = (calls Fake.start ++ made)%list
    /\ forallb (fun c => negb (behind_authentication c)) made = true.
Proof.
  exact (unauthenticated_request_reaches_no_guarded_method Fake.master
           _SlavesHeartbeatHandler POST ["7"] (Fake.request [] None) Fake.start eq_refl).
Defined.
